(** * 360QuakeForCMD: the search / display / export cycle of [QuakeQuery]

    A shallow embedding of the two entry points of the repository,
    [360QuakeForCMD.py] (module [Cmd]) and [quake_query.py] (module
    [Plain]), over a small model of the Python values that [json.loads]
    produces.  Console output, the requests handed to [requests.post] and
    the files of the working directory are an explicit [world]; Python
    exceptions are the error side of a state-and-exception monad in which
    the world reached before the exception is kept. *)

From Stdlib Require Import ZArith Ascii String.
From stdpp Require Import base option list strings pretty gmap.

Local Open Scope string_scope.
Local Open Scope Z_scope.
Local Open Scope list_scope.

(** ** Python values *)

(** What [json.loads] returns: [None], booleans, integers, floats (kept as
    the text of their literal), strings, lists and dicts.  A dict is the
    sequence of its items in insertion order; [dict_get] reads the first
    binding of a key. *)
#[warnings="-register-all"]
Inductive value : Type :=
  | VNone
  | VBool (b : bool)
  | VInt (n : Z)
  | VFloat (literal : string)
  | VStr (s : string)
  | VList (l : list value)
  | VDict (d : list (string * value)).

(** The values [argparse] hands to [main] for [--size] and [--page]: the
    integer default, or the text typed on the command line (no [type=]
    is given for these two options). *)
Inductive scalar : Type :=
  | SInt (n : Z)
  | SStr (s : string).

Definition scalar_value (a : scalar) : value :=
  match a with
  | SInt n => VInt n
  | SStr s => VStr s
  end.

(** [str(x)] for an [int] or a [str]. *)
Definition py_str (a : scalar) : string :=
  match a with
  | SInt n => pretty n
  | SStr s => s
  end.

(** ** Requests and exceptions *)

Record request : Type := {
  url : string;
  headers : list (string * string);
  json : value
}.

(** How a call of [requests.post] ends: the library refuses the request
    while preparing it (a header value it does not accept), with the text
    of its message; no response at all comes (DNS failure, refused
    connection, timeout); or a response comes, with its status code and
    body. *)
Inductive reply : Type :=
  | Refused (message : string)
  | NoResponse (why : string)
  | Response (status_code : Z) (text : string).

(** The subclasses of [requests.RequestException] the call can raise. *)
Inductive request_exception : Type :=
  | InvalidHeader (message : string)
  | ConnectionError (why : string)
  | HTTPError (status_code : Z).

(** The exceptions of the program: of subscripts and membership tests
    ([KeyError], [TypeError]), of [requests] ([RequestException]), of
    [json.loads] ([JSONDecodeError], and [ValueError] or [RecursionError]
    for an integer literal too long or a nesting too deep), and of
    [to_excel] ([OSError] when the file cannot be created,
    [IllegalCharacterError] for a cell the library refuses). *)
Inductive exn : Type :=
  | KeyError (key : string)
  | TypeError
  | RequestException (e : request_exception)
  | JSONDecodeError
  | ValueError
  | RecursionError
  | OSError (path : string)
  | IllegalCharacterError.

(** The error taxonomy of the specification, and the class each Python
    exception falls in. *)
Inductive error_class : Type :=
  | TransportError
  | DecodeError
  | DataShapeError
  | ExportError.

Definition classify (e : exn) : error_class :=
  match e with
  | KeyError _ | TypeError => DataShapeError
  | RequestException _ => TransportError
  | JSONDecodeError | ValueError | RecursionError => DecodeError
  | OSError _ | IllegalCharacterError => ExportError
  end.

(** ** The world *)

(** One piece of an f-string: literal text, [str()] of a value, or
    [str()] of the caught exception. *)
Inductive part : Type :=
  | Lit (s : string)
  | Fmt (v : value)
  | FmtExn (e : request_exception).

(** One [print] call: an f-string, or a [PrettyTable]. *)
Inductive output : Type :=
  | Print (parts : list part)
  | PrintTable (field_names : list string) (rows : list (list value)).

(** A [DataFrame] written by [to_excel(index=False)]: the header row and
    the records. *)
Record sheet : Type := {
  columns : list string;
  records : list (list value)
}.

(** A file of the working directory: a workbook with its sheet, or what
    is left of a write of a frame that stopped at a cell the library
    refused. *)
Inductive file : Type :=
  | Workbook (content : sheet)
  | Truncated (frame : sheet).

(** The console, the requests handed to [requests.post], the files. *)
Record world : Type := {
  stdout : list output;
  sent : list request;
  files : gmap string file
}.

(** Why [json.loads] gives no value for a text. *)
Inductive decoder_failure : Type :=
  | Malformed
  | IntegerTooLong
  | NestingTooDeep.

(** What the program reads from its surroundings: how [requests.post] ends
    for a request, the JSON decoder (the value of a text, or else why there
    is none), the working directory, whether a file can be created at a
    path, and what the spreadsheet library stores for a cell value, if it
    accepts it. *)
Record env : Type := {
  post : request -> reply;
  json_loads : string -> option value;
  json_error : string -> decoder_failure;
  getcwd : string;
  can_create : string -> bool;
  excel_cell : value -> option value
}.

(** ** State and exceptions *)

Definition M (A : Type) : Type := world -> world * (exn + A).

Definition ret {A} (a : A) : M A := fun w => (w, inr a).

Definition raise {A} (e : exn) : M A := fun w => (w, inl e).

Definition bind {A B} (m : M A) (f : A -> M B) : M B :=
  fun w =>
    match m w with
    | (w', inl e) => (w', inl e)
    | (w', inr a) => f a w'
    end.

Notation "'do' x <- m ; k" := (bind m (fun x => k))
  (at level 10, x name, m at level 100, k at level 200,
   format "'[v' 'do'  x  <-  m ; '/' k ']'").

Definition write_stdout (o : output) (w : world) : world :=
  {| stdout := stdout w ++ [o]; sent := sent w; files := files w |}.

Definition record_request (r : request) (w : world) : world :=
  {| stdout := stdout w; sent := sent w ++ [r]; files := files w |}.

Definition write_file (path : string) (df : sheet) (w : world) : world :=
  {| stdout := stdout w; sent := sent w; files := <[path := Workbook df]> (files w) |}.

Definition leave_truncated (path : string) (df : sheet) (w : world) : world :=
  {| stdout := stdout w; sent := sent w; files := <[path := Truncated df]> (files w) |}.

(** The cells the library stores for the cells of a row, and for the rows
    of a frame; none when it refuses a cell. *)
Fixpoint store_row (E : env) (row : list value) : option (list value) :=
  match row with
  | [] => Some []
  | v :: rest =>
      match excel_cell E v, store_row E rest with
      | Some v', Some rest' => Some (v' :: rest')
      | _, _ => None
      end
  end.

Fixpoint store_rows (E : env) (rows : list (list value)) : option (list (list value)) :=
  match rows with
  | [] => Some []
  | row :: rest =>
      match store_row E row, store_rows E rest with
      | Some row', Some rest' => Some (row' :: rest')
      | _, _ => None
      end
  end.

Definition print (o : output) : M unit :=
  fun w => (write_stdout o w, inr tt).

Definition send (E : env) (r : request) : M reply :=
  fun w => (record_request r w, inr (post E r)).

(** [df.to_excel(path, index=False, engine="openpyxl")]: when the file
    cannot be created the write raises and nothing is touched; otherwise
    the file is created or replaced and the header and the cells are
    written; a cell the library refuses makes the write raise, and what was
    written before it stays in the file. *)
Definition to_excel (E : env) (path : string) (df : sheet) : M unit :=
  fun w =>
    if can_create E path
    then match store_rows E (records df) with
         | Some stored =>
             (write_file path {| columns := columns df; records := stored |} w, inr tt)
         | None => (leave_truncated path df w, inl IllegalCharacterError)
         end
    else (w, inl (OSError path)).

(** ** Operations on values *)

Fixpoint dict_get (k : string) (d : list (string * value)) : option value :=
  match d with
  | [] => None
  | (k', v) :: d' => if String.eqb k' k then Some v else dict_get k d'
  end.

(** An expression that reads no state: its outcome, in any world. *)
Definition lift {A} (r : exn + A) : M A := fun w => (w, r).

(** [v[k]] for a string key [k]. *)
Definition getitem (v : value) (k : string) : exn + value :=
  match v with
  | VDict d =>
      match dict_get k d with
      | Some x => inr x
      | None => inl (KeyError k)
      end
  | _ => inl TypeError
  end.

Definition subscript (v : value) (k : string) : M value := lift (getitem v k).

(** [k in s] for two strings: [k] occurs in [s]. *)
Fixpoint occurs (k s : string) : bool :=
  String.prefix k s ||
  match s with
  | EmptyString => false
  | String _ s' => occurs k s'
  end.

Definition is_str (k : string) (v : value) : bool :=
  match v with
  | VStr s => String.eqb s k
  | _ => false
  end.

(** [k in v] for a string [k]: a key of a dict, an element of a list, a
    substring of a string; other values are not containers. *)
Definition member (k : string) (v : value) : exn + bool :=
  match v with
  | VDict d => inr (bool_decide (is_Some (dict_get k d)))
  | VList l => inr (existsb (is_str k) l)
  | VStr s => inr (occurs k s)
  | _ => inl TypeError
  end.

Definition contains (k : string) (v : value) : M bool := lift (member k v).

(** The items a [for] loop draws from a value: the elements of a list, the
    keys of a dict, the characters of a string. *)
Fixpoint chars (s : string) : list value :=
  match s with
  | EmptyString => []
  | String c s' => VStr (String c EmptyString) :: chars s'
  end.

Definition elements_of (v : value) : exn + list value :=
  match v with
  | VList l => inr l
  | VDict d => inr (map (fun kv => VStr (fst kv)) d)
  | VStr s => inr (chars s)
  | _ => inl TypeError
  end.

Definition iterate (v : value) : M (list value) := lift (elements_of v).

(** ** The file name of the export *)

(** [s.replace(old, new)] for a one-character [old].  The three characters
    replaced by the program are ASCII, so working on the UTF-8 bytes
    replaces the same occurrences as working on code points. *)
Fixpoint replace (old : ascii) (new : string) (s : string) : string :=
  match s with
  | EmptyString => EmptyString
  | String c s' =>
      if Ascii.eqb c old then new +:+ replace old new s'
      else String c (replace old new s')
  end.

Definition space : ascii := "032"%char.
Definition colon : ascii := "058"%char.
Definition dquote : ascii := "034"%char.

Definition query_filename (query_term : string) : string :=
  replace dquote "" (replace colon "" (replace space "_" query_term)).

Definition file_name (query_term : string) : string :=
  "quake_results_" +:+ query_filename query_term +:+ ".xlsx".

(** [os.path.join(a, b)] on POSIX. *)
Definition path_join (a b : string) : string :=
  if String.prefix "/" b then b
  else if String.eqb a "" || String.eqb (String.substring (String.length a - 1) 1 a) "/"
       then a +:+ b
       else a +:+ "/" +:+ b.

(** ** The class [QuakeQuery] *)

Record QuakeQuery : Type := { api_key : string }.

(** The namespace [argparse] returns. *)
Record arguments : Type := {
  search : option string;
  size : scalar;
  page : scalar
}.

(** [if args.search:] holds for a string that is not empty. *)
Definition truthy (a : option string) : option string :=
  match a with
  | Some s => if String.eqb s "" then None else Some s
  | None => None
  end.

Definition endpoint : string := "https://quake.360.cn/api/v3/search/quake_service".

Definition newline : string := String "010"%char EmptyString.

Definition field_names : list string := ["序号"; "地址"; "IP"; "端口"].

(** [requests.post]: the request is handed to the library; a request it
    refuses and a call that cannot complete raise. *)
Definition requests_post (E : env) (r : request) : M (Z * string) :=
  do answer <- send E r;
  match answer with
  | Refused message => raise (RequestException (InvalidHeader message))
  | NoResponse why => raise (RequestException (ConnectionError why))
  | Response status_code text => ret (status_code, text)
  end.

(** [Response.raise_for_status] of the requests library: an [HTTPError] for
    a status code from 400 to 599, nothing otherwise. *)
Definition raise_for_status (response : Z * string) : M unit :=
  let status_code := fst response in
  if (400 <=? status_code) && (status_code <? 600)
  then raise (RequestException (HTTPError status_code))
  else ret tt.

Definition decoder_exception (f : decoder_failure) : exn :=
  match f with
  | Malformed => JSONDecodeError
  | IntegerTooLong => ValueError
  | NestingTooDeep => RecursionError
  end.

(** [json.loads]: the value of the text, or the exception of the
    decoder. *)
Definition loads (E : env) (text : string) : M value :=
  match json_loads E text with
  | Some v => ret v
  | None => raise (decoder_exception (json_error E text))
  end.

(** [try: body except requests.RequestException as e: handler]. *)
Definition try_except {A} (body : M A) (handler : request_exception -> M A) : M A :=
  fun w =>
    match body w with
    | (w', inl (RequestException e)) => handler e w'
    | r => r
    end.

(** *** 360QuakeForCMD.py *)
Module Cmd.

Definition perform_search (E : env) (self : QuakeQuery)
    (query : string) (result_count start_page : scalar) : M value :=
  let headers := [("X-QuakeToken", api_key self)] in
  let payload := VDict [("query", VStr query);
                        ("start", scalar_value start_page);
                        ("size", VStr (py_str result_count))] in
  try_except
    (do response <- requests_post E {| url := endpoint; headers := headers; json := payload |};
     do _ <- raise_for_status response;
     loads E (snd response))
    (fun e =>
       do _ <- print (Print [Lit "API请求过程中发生错误: "; FmtExn e]);
       raise (RequestException e)).

(** The body of the [for] loop of [display_results], from position [index]
    on, adding to the rows of [table]. *)
Fixpoint add_rows (index : Z) (items : list value) (table : list (list value))
    : M (list (list value)) :=
  match items with
  | [] => ret table
  | item :: rest =>
      do service <- subscript item "service";
      do present <- contains "http" service;
      do table' <-
        (if present : bool then
           do service <- subscript item "service";
           do http <- subscript service "http";
           do host <- subscript http "host";
           do ip <- subscript item "ip";
           do port <- subscript item "port";
           ret (table ++ [[VInt index; host; ip; port]])
         else
           do _ <- print (Print [Lit "警告：第"; Fmt (VInt index);
                                 Lit "条结果的'service'结构中缺少'http'子项，跳过该条记录。"]);
           ret table);
      add_rows (index + 1) rest table'
  end.

Definition pagination (api_response : value) (k : string) : M value :=
  do meta <- subscript api_response "meta";
  do p <- subscript meta "pagination";
  subscript p k.

Definition display_results (self : QuakeQuery) (api_response : value)
    (start_page result_count : scalar) (query_term : string) : M unit :=
  do _ <- print (Print [Lit newline]);
  do page_index <- pagination api_response "page_index";
  do page_size <- pagination api_response "page_size";
  do total <- pagination api_response "total";
  do _ <- print (Print [Lit "页码：第"; Fmt page_index; Lit "页 共"; Fmt page_size;
                        Lit "页 总数量："; Fmt total; Lit "个"]);
  do _ <- print (Print [Lit "查询内容："; Fmt (VStr query_term)]);
  do data <- subscript api_response "data";
  do items <- iterate data;
  do table <- add_rows 1 items [];
  print (PrintTable field_names table).

(** The list comprehension of [export_to_excel], from position [index]
    on. *)
Fixpoint export_rows (index : Z) (items : list value) : M (list (list value)) :=
  match items with
  | [] => ret []
  | item :: rest =>
      do service <- subscript item "service";
      do http <- subscript service "http";
      do host <- subscript http "host";
      do ip <- subscript item "ip";
      do port <- subscript item "port";
      do rows <- export_rows (index + 1) rest;
      ret ([VInt (index + 1); host; ip; port] :: rows)
  end.

Definition export_to_excel (E : env) (self : QuakeQuery) (api_response : value)
    (query_term : string) : M unit :=
  do data_in <- subscript api_response "data";
  do items <- iterate data_in;
  do data <- export_rows 0 items;
  let df := {| columns := field_names; records := data |} in
  let current_dir := getcwd E in
  let file_path := path_join current_dir (file_name query_term) in
  do _ <- to_excel E file_path df;
  print (Print [Lit "结果已成功导出至当前目录下的"; Fmt (VStr (file_name query_term));
                Lit "文件。"]).

Definition main (E : env) (self : QuakeQuery) (args : arguments) : M unit :=
  match truthy (search args) with
  | Some query =>
      do search_results <- perform_search E self query (size args) (page args);
      do _ <- display_results self search_results (page args) (size args) query;
      do _ <- export_to_excel E self search_results query;
      print (Print [Lit "结果已成功导出至当前目录下的quake_results_";
                    Fmt (VStr (query_filename query)); Lit ".xlsx文件。"])
  | None =>
      print (Print [Lit (newline +:+ "Usage: 360QuakeForCMD.py -h, --help 查看帮助信息并退出")])
  end.

End Cmd.

(** *** quake_query.py *)
Module Plain.

Definition perform_search (E : env) (self : QuakeQuery)
    (query : string) (result_count start_page : scalar) : M value :=
  let headers := [("X-QuakeToken", api_key self)] in
  let payload := VDict [("query", VStr query);
                        ("start", scalar_value start_page);
                        ("size", VStr (py_str result_count))] in
  try_except
    (do response <- requests_post E {| url := endpoint; headers := headers; json := payload |};
     do _ <- raise_for_status response;
     loads E (snd response))
    (fun e =>
       do _ <- print (Print [Lit "API请求过程中发生错误: "; FmtExn e]);
       raise (RequestException e)).

Fixpoint add_rows (index : Z) (items : list value) (table : list (list value))
    : M (list (list value)) :=
  match items with
  | [] => ret table
  | item :: rest =>
      do service <- subscript item "service";
      do http <- subscript service "http";
      do host <- subscript http "host";
      do ip <- subscript item "ip";
      do port <- subscript item "port";
      add_rows (index + 1) rest (table ++ [[VInt index; host; ip; port]])
  end.

Definition pagination (api_response : value) (k : string) : M value :=
  do meta <- subscript api_response "meta";
  do p <- subscript meta "pagination";
  subscript p k.

Definition display_results (self : QuakeQuery) (api_response : value)
    (start_page result_count : scalar) (query_term : string) : M unit :=
  do _ <- print (Print [Lit newline]);
  do page_index <- pagination api_response "page_index";
  do page_size <- pagination api_response "page_size";
  do total <- pagination api_response "total";
  do _ <- print (Print [Lit "页码：第"; Fmt page_index; Lit "页 共"; Fmt page_size;
                        Lit "页 总数量："; Fmt total; Lit "个"]);
  do _ <- print (Print [Lit "查询内容："; Fmt (VStr query_term)]);
  do data <- subscript api_response "data";
  do items <- iterate data;
  do table <- add_rows 1 items [];
  print (PrintTable field_names table).

Definition main (E : env) (self : QuakeQuery) (args : arguments) : M unit :=
  match truthy (search args) with
  | Some query =>
      do search_results <- perform_search E self query (size args) (page args);
      display_results self search_results (page args) (size args) query
  | None =>
      print (Print [Lit (newline +:+ "Usage: quake_query.py -h, --help 查看帮助信息并退出")])
  end.

End Plain.

(** * Properties *)

(** ** The export file name *)

(** What the specification says of one character of the query term: a
    space becomes an underscore, a colon or a double quote disappears, any
    other character stays. *)
Definition safe_substitute (c : ascii) : string :=
  if Ascii.eqb c space then "_"
  else if Ascii.eqb c colon || Ascii.eqb c dquote then ""
  else String c "".

Fixpoint sanitized (s : string) : string :=
  match s with
  | EmptyString => EmptyString
  | String c s' => safe_substitute c +:+ sanitized s'
  end.

Definition unsafe (c : ascii) : bool :=
  Ascii.eqb c space || Ascii.eqb c colon || Ascii.eqb c dquote.

Fixpoint free_of_unsafe (s : string) : bool :=
  match s with
  | EmptyString => true
  | String c s' => negb (unsafe c) && free_of_unsafe s'
  end.

Lemma append_cons (c : ascii) (s t : string) : String c s +:+ t = String c (s +:+ t).
Proof. reflexivity. Qed.

Lemma append_empty (t : string) : "" +:+ t = t.
Proof. reflexivity. Qed.

Lemma query_filename_sanitized (q : string) : query_filename q = sanitized q.
Proof.
  unfold query_filename.
  induction q as [|c q IH]; [reflexivity|].
  cbn [replace sanitized]. unfold safe_substitute.
  destruct (Ascii.eqb_spec c space) as [->|Hs].
  - rewrite !append_cons, !append_empty. cbn. f_equal. exact IH.
  - cbn [replace]. destruct (Ascii.eqb_spec c colon) as [->|Hc].
    + rewrite !append_empty. exact IH.
    + cbn [replace orb]. destruct (Ascii.eqb_spec c dquote) as [->|Hd].
      * rewrite !append_empty. exact IH.
      * rewrite !append_cons, !append_empty. f_equal. exact IH.
Qed.

Lemma free_of_unsafe_app (a b : string) :
  free_of_unsafe (a +:+ b) = free_of_unsafe a && free_of_unsafe b.
Proof.
  induction a as [|c a IH]; [reflexivity|].
  rewrite append_cons. cbn [free_of_unsafe]. rewrite IH. now rewrite andb_assoc.
Qed.

Lemma sanitized_free (q : string) : free_of_unsafe (sanitized q) = true.
Proof.
  induction q as [|c q IH]; [reflexivity|].
  cbn [sanitized]. rewrite free_of_unsafe_app, IH, andb_true_r.
  unfold safe_substitute, unsafe.
  destruct (Ascii.eqb c space) eqn:Hs; [reflexivity|].
  destruct (Ascii.eqb c colon) eqn:Hc; [reflexivity|].
  destruct (Ascii.eqb c dquote) eqn:Hd; [reflexivity|].
  cbn [free_of_unsafe orb]. unfold unsafe. now rewrite Hs, Hc, Hd.
Qed.

(** C5: the export file name is the prefix [quake_results_], then the query
    term with every space turned into an underscore and every colon and
    double quote removed, then [.xlsx]; no space, colon or double quote is
    left in it. *)
Theorem file_name_sanitized (query_term : string) :
  file_name query_term = "quake_results_" +:+ sanitized query_term +:+ ".xlsx"
  /\ free_of_unsafe (file_name query_term) = true.
Proof.
  unfold file_name. rewrite query_filename_sanitized. split; [reflexivity|].
  rewrite !free_of_unsafe_app, sanitized_free. reflexivity.
Qed.

(** ** The search request *)

(** The request [perform_search] builds from the credential and its three
    arguments. *)
Definition search_request (self : QuakeQuery) (query : string)
    (result_count start_page : scalar) : request :=
  {| url := endpoint;
     headers := [("X-QuakeToken", api_key self)];
     json := VDict [("query", VStr query);
                    ("start", scalar_value start_page);
                    ("size", VStr (py_str result_count))] |}.

Definition error_line (e : request_exception) : output :=
  Print [Lit "API请求过程中发生错误: "; FmtExn e].

Definition http_error (status_code : Z) : bool :=
  (400 <=? status_code) && (status_code <? 600).

(** The outcome of [perform_search] in terms of the answer to its request. *)
Definition search_outcome (E : env) (r : request) (w : world) : world * (exn + value) :=
  match post E r with
  | Refused message =>
      (write_stdout (error_line (InvalidHeader message)) (record_request r w),
       inl (RequestException (InvalidHeader message)))
  | NoResponse why =>
      (write_stdout (error_line (ConnectionError why)) (record_request r w),
       inl (RequestException (ConnectionError why)))
  | Response status_code text =>
      if http_error status_code
      then (write_stdout (error_line (HTTPError status_code)) (record_request r w),
            inl (RequestException (HTTPError status_code)))
      else match json_loads E text with
           | Some v => (record_request r w, inr v)
           | None => (record_request r w, inl (decoder_exception (json_error E text)))
           end
  end.

Lemma perform_search_outcome E self query result_count start_page w :
  Cmd.perform_search E self query result_count start_page w
  = search_outcome E (search_request self query result_count start_page) w.
Proof.
  unfold Cmd.perform_search, search_outcome, try_except, requests_post, send, bind.
  fold (search_request self query result_count start_page).
  destruct (post E _) as [message|why|status_code text]; [reflexivity|reflexivity|].
  unfold raise_for_status, http_error, ret, raise, loads. cbn [fst snd].
  destruct ((400 <=? status_code) && (status_code <? 600)); [reflexivity|].
  destruct (json_loads E text); [reflexivity|].
  destruct (json_error E text); reflexivity.
Qed.

Lemma perform_search_same : Plain.perform_search = Cmd.perform_search.
Proof. reflexivity. Qed.

Lemma search_outcome_sent E r w : sent (fst (search_outcome E r w)) = sent w ++ [r].
Proof.
  unfold search_outcome.
  destruct (post E r) as [message|why|status_code text]; [reflexivity|reflexivity|].
  destruct (http_error status_code); [reflexivity|].
  destruct (json_loads E text); reflexivity.
Qed.

(** C4: [perform_search] hands exactly one request to [requests.post]: a
    POST to the endpoint whose JSON body has [query] equal to the query
    argument, [start] equal to the start-page argument (the number itself
    for a number, the text itself for a text typed on the command line) and
    [size] equal to the decimal text of the numeric page size.  Both
    files. *)
Theorem perform_search_sends_one_request (E : env) (self : QuakeQuery)
    (query : string) (page_size start_page : Z) (typed_page : string) (w : world) :
  let request_with start :=
    {| url := "https://quake.360.cn/api/v3/search/quake_service";
       headers := [("X-QuakeToken", api_key self)];
       json := VDict [("query", VStr query); ("start", start);
                      ("size", VStr (pretty page_size))] |} in
  sent (fst (Cmd.perform_search E self query (SInt page_size) (SInt start_page) w))
    = sent w ++ [request_with (VInt start_page)]
  /\ sent (fst (Plain.perform_search E self query (SInt page_size) (SInt start_page) w))
     = sent w ++ [request_with (VInt start_page)]
  /\ sent (fst (Cmd.perform_search E self query (SInt page_size) (SStr typed_page) w))
     = sent w ++ [request_with (VStr typed_page)]
  /\ sent (fst (Plain.perform_search E self query (SInt page_size) (SStr typed_page) w))
     = sent w ++ [request_with (VStr typed_page)].
Proof.
  cbv zeta. rewrite perform_search_same, !perform_search_outcome.
  repeat split; apply search_outcome_sent.
Qed.

Example size_of_default_page : py_str (SInt 100) = "100".
Proof. reflexivity. Qed.

(** ** Failures of the search *)

Lemma perform_search_no_response E self query result_count start_page w why :
  post E (search_request self query result_count start_page) = NoResponse why ->
  Cmd.perform_search E self query result_count start_page w
  = (write_stdout (error_line (ConnectionError why))
       (record_request (search_request self query result_count start_page) w),
     inl (RequestException (ConnectionError why))).
Proof. intros H. rewrite perform_search_outcome. unfold search_outcome. now rewrite H. Qed.

Lemma perform_search_http_error E self query result_count start_page w status_code text :
  post E (search_request self query result_count start_page) = Response status_code text ->
  400 <= status_code < 600 ->
  Cmd.perform_search E self query result_count start_page w
  = (write_stdout (error_line (HTTPError status_code))
       (record_request (search_request self query result_count start_page) w),
     inl (RequestException (HTTPError status_code))).
Proof.
  intros H Hs. rewrite perform_search_outcome. unfold search_outcome. rewrite H.
  replace (http_error status_code) with true; [reflexivity|].
  unfold http_error. symmetry. apply andb_true_iff. split; [apply Z.leb_le|apply Z.ltb_lt]; lia.
Qed.

Lemma perform_search_decode_error E self query result_count start_page w status_code text :
  post E (search_request self query result_count start_page) = Response status_code text ->
  http_error status_code = false ->
  json_loads E text = None ->
  Cmd.perform_search E self query result_count start_page w
  = (record_request (search_request self query result_count start_page) w,
     inl (decoder_exception (json_error E text))).
Proof.
  intros H Hs Hj. rewrite perform_search_outcome. unfold search_outcome.
  now rewrite H, Hs, Hj.
Qed.

(** A transport error leaves [perform_search] only after its message has
    been printed, and with no file touched. *)
Lemma search_outcome_transport E r w w1 e :
  search_outcome E r w = (w1, inl (RequestException e)) ->
  stdout w1 = stdout w ++ [error_line e] /\ files w1 = files w.
Proof.
  unfold search_outcome.
  destruct (post E r) as [message|why|status_code text].
  - intros [= <- <-]. split; reflexivity.
  - intros [= <- <-]. split; reflexivity.
  - destruct (http_error status_code).
    + intros [= <- <-]. split; reflexivity.
    + destruct (json_loads E text) as [v|]; [discriminate|].
      destruct (json_error E text); discriminate.
Qed.

(** A status outside 400..599, a redirection for instance, is not an error
    for [raise_for_status]: the search then ends as the decoder decides,
    never in a transport error. *)
Lemma perform_search_other_status E self query result_count start_page w status_code text :
  post E (search_request self query result_count start_page) = Response status_code text ->
  status_code < 400 \/ 600 <= status_code ->
  Cmd.perform_search E self query result_count start_page w
  = (record_request (search_request self query result_count start_page) w,
     match json_loads E text with
     | Some v => inr v
     | None => inl (decoder_exception (json_error E text))
     end).
Proof.
  intros H Hs. rewrite perform_search_outcome. unfold search_outcome. rewrite H.
  replace (http_error status_code) with false.
  - now destruct (json_loads E text).
  - unfold http_error. symmetry. apply andb_false_iff.
    destruct Hs; [left; apply Z.leb_gt|right; apply Z.ltb_ge]; lia.
Qed.

Definition empty_world : world := {| stdout := []; sent := []; files := ∅ |}.

(** A service that answers every request with status 304 and the body
    [{}]. *)
Definition not_modified : env :=
  {| post := fun _ => Response 304 "{}";
     json_loads := fun text => if String.eqb text "{}" then Some (VDict []) else None;
     json_error := fun _ => Malformed;
     getcwd := "/tmp";
     can_create := fun _ => true;
     excel_cell := Some |}.

(** C6, at a status that is neither 2xx nor an error status for
    [raise_for_status]: the answer 304 with body [{}] raises nothing,
    prints nothing, and the decoded body is returned. *)
Theorem perform_search_status_304 :
  Cmd.perform_search not_modified {| api_key := "k" |} "city=Beijing" (SInt 100) (SInt 1)
    empty_world
  = (record_request (search_request {| api_key := "k" |} "city=Beijing" (SInt 100) (SInt 1))
       empty_world,
     inr (VDict []))
  /\ Plain.perform_search not_modified {| api_key := "k" |} "city=Beijing" (SInt 100) (SInt 1)
       empty_world
     = (record_request (search_request {| api_key := "k" |} "city=Beijing" (SInt 100) (SInt 1))
          empty_world,
        inr (VDict [])).
Proof. split; reflexivity. Qed.

(** ** A run whose search fails *)

(** C7: when [perform_search] fails with a transport error, [main] ends in
    that same error in the world the search left: the console has gained
    the error message only, so no table, and the files are those from
    before the run. *)
Theorem main_stops_at_transport_error (E : env) (self : QuakeQuery) (args : arguments)
    (query : string) (w w1 : world) (e : request_exception) :
  truthy (search args) = Some query ->
  Cmd.perform_search E self query (size args) (page args) w
    = (w1, inl (RequestException e)) ->
  Cmd.main E self args w = (w1, inl (RequestException e))
  /\ stdout w1 = stdout w ++ [error_line e]
  /\ files w1 = files w.
Proof.
  intros Hq Hs. split.
  - unfold Cmd.main. rewrite Hq. unfold bind at 1. now rewrite Hs.
  - rewrite perform_search_outcome in Hs. now apply search_outcome_transport in Hs.
Qed.

(** The connection is refused. *)
Definition refused : env :=
  {| post := fun _ => NoResponse "Connection refused";
     json_loads := fun _ => None;
     json_error := fun _ => Malformed;
     getcwd := "/tmp";
     can_create := fun _ => true;
     excel_cell := Some |}.

Lemma main_stops_at_transport_error_witness :
  let args := {| search := Some "city=Beijing"; size := SInt 2; page := SInt 1 |} in
  let self := {| api_key := "k" |} in
  let e := ConnectionError "Connection refused" in
  let w1 := write_stdout (error_line e)
              (record_request (search_request self "city=Beijing" (SInt 2) (SInt 1))
                 empty_world) in
  Cmd.main refused self args empty_world = (w1, inl (RequestException e))
  /\ stdout w1 = stdout empty_world ++ [error_line e]
  /\ files w1 = files empty_world.
Proof.
  cbv zeta.
  apply (main_stops_at_transport_error refused {| api_key := "k" |}
           {| search := Some "city=Beijing"; size := SInt 2; page := SInt 1 |}
           "city=Beijing" empty_world); reflexivity.
Defined.

(** ** Result items and export records *)

Definition lookup_key (k : string) (v : value) : option value :=
  match v with
  | VDict d => dict_get k d
  | _ => None
  end.

(** The HTTP sub-structure of the service structure of an item. *)
Definition http_of (item : value) : option value :=
  match lookup_key "service" item with
  | Some (VDict s) => dict_get "http" s
  | _ => None
  end.

Definition has_http (item : value) : bool :=
  match http_of item with
  | Some _ => true
  | None => false
  end.

(** The result item of the specification's data model: an [ip], a [port],
    a service structure, and a [host] in the HTTP sub-structure when there
    is one. *)
Definition result_item (item : value) : bool :=
  match lookup_key "ip" item, lookup_key "port" item, lookup_key "service" item with
  | Some _, Some _, Some (VDict s) =>
      match dict_get "http" s with
      | Some http => match lookup_key "host" http with Some _ => true | None => false end
      | None => true
      end
  | _, _, _ => false
  end.

(** The export record of the specification: the projection (index, host,
    ip, port) of an item, nothing else. *)
Definition export_record (index : Z) (item : value) : option (list value) :=
  match http_of item with
  | Some http =>
      match lookup_key "host" http, lookup_key "ip" item, lookup_key "port" item with
      | Some host, Some ip, Some port => Some [VInt index; host; ip; port]
      | _, _, _ => None
      end
  | None => None
  end.

Definition warning_line (index : Z) : output :=
  Print [Lit "警告：第"; Fmt (VInt index);
         Lit "条结果的'service'结构中缺少'http'子项，跳过该条记录。"].

(** The rows kept and the warnings printed for the items from position
    [index] on, under the skip policy. *)
Fixpoint kept_rows (index : Z) (items : list value) : list (list value) :=
  match items with
  | [] => []
  | item :: rest =>
      match export_record index item with
      | Some row => row :: kept_rows (index + 1) rest
      | None => kept_rows (index + 1) rest
      end
  end.

Fixpoint skip_warnings (index : Z) (items : list value) : list output :=
  match items with
  | [] => []
  | item :: rest =>
      if has_http item then skip_warnings (index + 1) rest
      else warning_line index :: skip_warnings (index + 1) rest
  end.

Definition write_lines (os : list output) (w : world) : world :=
  {| stdout := stdout w ++ os; sent := sent w; files := files w |}.

Lemma write_lines_nil w : write_lines [] w = w.
Proof. destruct w. unfold write_lines. cbn. now rewrite app_nil_r. Qed.

Lemma write_lines_app a b w : write_lines b (write_lines a w) = write_lines (a ++ b) w.
Proof. unfold write_lines. cbn. now rewrite app_assoc. Qed.

Lemma write_stdout_lines o w : write_stdout o w = write_lines [o] w.
Proof. reflexivity. Qed.

Lemma result_item_inv item :
  result_item item = true ->
  exists d ip port s,
    item = VDict d /\ dict_get "ip" d = Some ip /\ dict_get "port" d = Some port
    /\ dict_get "service" d = Some (VDict s)
    /\ (dict_get "http" s = None
        \/ exists h host, dict_get "http" s = Some (VDict h) /\ dict_get "host" h = Some host).
Proof.
  unfold result_item. destruct item as [| | | | | |d]; try discriminate.
  cbn [lookup_key].
  destruct (dict_get "ip" d) as [ip|] eqn:Hip; [|discriminate].
  destruct (dict_get "port" d) as [port|] eqn:Hport; [|discriminate].
  destruct (dict_get "service" d) as [[| | | | | |s]|] eqn:Hservice; try discriminate.
  intros H. exists d, ip, port, s. repeat split; try assumption.
  destruct (dict_get "http" s) as [http|]; [right|now left].
  destruct http as [| | | | | |h]; try discriminate. cbn [lookup_key] in H.
  destruct (dict_get "host" h) as [host|] eqn:Hhost; [|discriminate].
  now exists h, host.
Qed.

(** Running one step of a program. *)
Lemma bind_ret {A B} (a : A) (f : A -> M B) w : bind (ret a) f w = f a w.
Proof. reflexivity. Qed.

Lemma bind_lift_inr {A B} (r : exn + A) (a : A) (f : A -> M B) w :
  r = inr a -> bind (lift r) f w = f a w.
Proof. now intros ->. Qed.

Lemma bind_lift_inl {A B} (r : exn + A) (e : exn) (f : A -> M B) w :
  r = inl e -> bind (lift r) f w = (w, inl e).
Proof. now intros ->. Qed.

Lemma bind_print {B} (o : output) (f : unit -> M B) w :
  bind (print o) f w = f tt (write_stdout o w).
Proof. reflexivity. Qed.

Lemma bind_assoc {A B C} (m : M A) (f : A -> M B) (g : B -> M C) w :
  bind (bind m f) g w = bind m (fun a => bind (f a) g) w.
Proof. unfold bind. destruct (m w) as [w' [e|a]]; reflexivity. Qed.

Lemma getitem_dict d k x : dict_get k d = Some x -> getitem (VDict d) k = inr x.
Proof. cbn. now intros ->. Qed.

Lemma getitem_missing d k : dict_get k d = None -> getitem (VDict d) k = inl (KeyError k).
Proof. cbn. now intros ->. Qed.

Lemma member_dict_true d k x : dict_get k d = Some x -> member k (VDict d) = inr true.
Proof. cbn. intros ->. now rewrite bool_decide_eq_true_2 by (now eexists). Qed.

Lemma member_dict_false d k : dict_get k d = None -> member k (VDict d) = inr false.
Proof.
  cbn. intros ->. now rewrite bool_decide_eq_false_2 by (intros [? ?]; discriminate).
Qed.

Ltac run :=
  repeat first
    [ rewrite bind_ret
    | rewrite bind_print
    | rewrite bind_assoc
    | erewrite bind_lift_inr by
        first [ eassumption
              | apply getitem_dict; eassumption
              | eapply member_dict_true; eassumption
              | apply member_dict_false; eassumption
              | reflexivity ]
    | erewrite bind_lift_inl by
        first [ eassumption | apply getitem_missing; eassumption | reflexivity ]
    | progress cbv beta iota ].

(** The loop of [display_results] in [360QuakeForCMD.py] over result
    items: a row for each item with the HTTP sub-structure, a warning for
    each item without. *)
Lemma add_rows_skips items :
  forall index table w,
    forallb result_item items = true ->
    Cmd.add_rows index items table w
    = (write_lines (skip_warnings index items) w, inr (table ++ kept_rows index items)).
Proof.
  induction items as [|item rest IH]; intros index table w H.
  - cbn. now rewrite write_lines_nil, app_nil_r.
  - cbn [forallb] in H. apply andb_true_iff in H as [Hitem Hrest].
    destruct (result_item_inv item Hitem)
      as (d & ip & port & s & -> & Hip & Hport & Hservice & Hhttp).
    cbn [Cmd.add_rows kept_rows skip_warnings].
    unfold export_record, has_http, http_of. cbn [lookup_key]. rewrite Hservice.
    unfold subscript, contains.
    destruct Hhttp as [Hnone|(h & host & Hsome & Hhost)].
    + rewrite Hnone. run.
      rewrite IH by assumption. rewrite write_stdout_lines, write_lines_app. reflexivity.
    + rewrite Hsome. cbn [lookup_key]. rewrite Hhost, Hip, Hport. run.
      rewrite IH by assumption. now rewrite <- app_assoc.
Qed.

(** A result item with the HTTP sub-structure has its export record. *)
Lemma full_item_inv item :
  result_item item = true -> has_http item = true ->
  exists d ip port s h host,
    item = VDict d /\ dict_get "ip" d = Some ip /\ dict_get "port" d = Some port
    /\ dict_get "service" d = Some (VDict s) /\ dict_get "http" s = Some (VDict h)
    /\ dict_get "host" h = Some host
    /\ forall index, export_record index item = Some [VInt index; host; ip; port].
Proof.
  intros Hitem Hhttp.
  destruct (result_item_inv item Hitem)
    as (d & ip & port & s & -> & Hip & Hport & Hservice & Hcase).
  unfold has_http, http_of in Hhttp. cbn [lookup_key] in Hhttp. rewrite Hservice in Hhttp.
  destruct Hcase as [Hnone|(h & host & Hsome & Hhost)].
  - now rewrite Hnone in Hhttp.
  - exists d, ip, port, s, h, host. repeat split; try assumption.
    intros index. unfold export_record, http_of. cbn [lookup_key].
    now rewrite Hservice, Hsome, Hip, Hport; cbn [lookup_key]; rewrite Hhost.
Qed.

(** The loop of [display_results] in [quake_query.py], over result items
    that all have the HTTP sub-structure. *)
Lemma plain_add_rows_full items :
  forall index table w,
    forallb result_item items = true ->
    forallb has_http items = true ->
    Plain.add_rows index items table w = (w, inr (table ++ kept_rows index items)).
Proof.
  induction items as [|item rest IH]; intros index table w Hr Hh.
  - cbn. now rewrite app_nil_r.
  - cbn [forallb] in Hr, Hh.
    apply andb_true_iff in Hr as [Hitem Hrest]. apply andb_true_iff in Hh as [Hhttp Hhrest].
    destruct (full_item_inv item Hitem Hhttp)
      as (d & ip & port & s & h & host & -> & Hip & Hport & Hservice & Hsome & Hhost & Hrec).
    cbn [Plain.add_rows kept_rows]. rewrite Hrec. unfold subscript. run.
    rewrite IH by assumption. now rewrite <- app_assoc.
Qed.

(** The list comprehension of [export_to_excel], over the same items. *)
Lemma export_rows_full items :
  forall index w,
    forallb result_item items = true ->
    forallb has_http items = true ->
    Cmd.export_rows index items w = (w, inr (kept_rows (index + 1) items)).
Proof.
  induction items as [|item rest IH]; intros index w Hr Hh.
  - reflexivity.
  - cbn [forallb] in Hr, Hh.
    apply andb_true_iff in Hr as [Hitem Hrest]. apply andb_true_iff in Hh as [Hhttp Hhrest].
    destruct (full_item_inv item Hitem Hhttp)
      as (d & ip & port & s & h & host & -> & Hip & Hport & Hservice & Hsome & Hhost & Hrec).
    cbn [Cmd.export_rows kept_rows]. rewrite Hrec. unfold subscript. run.
    unfold bind. rewrite IH by assumption. reflexivity.
Qed.

(** With no item skipped, there are as many rows as items, the row at each
    position is the export record of the item at that position, and no
    warning is printed. *)
Lemma kept_rows_full items :
  forall index,
    forallb result_item items = true ->
    forallb has_http items = true ->
    length (kept_rows index items) = length items
    /\ (forall (i : nat) item, items !! i = Some item ->
          kept_rows index items !! i = export_record (index + Z.of_nat i) item)
    /\ skip_warnings index items = [].
Proof.
  induction items as [|item rest IH]; intros index Hr Hh.
  - repeat split. intros i item Hi. now rewrite lookup_nil in Hi.
  - cbn [forallb] in Hr, Hh.
    apply andb_true_iff in Hr as [Hitem Hrest]. apply andb_true_iff in Hh as [Hhttp Hhrest].
    destruct (IH (index + 1) Hrest Hhrest) as (Hlen & Hrows & Hwarn).
    destruct (full_item_inv item Hitem Hhttp) as (d & ip & port & s & h & host & _ & _ & _ & _ & _ & _ & Hrec).
    cbn [kept_rows skip_warnings]. rewrite Hrec, Hhttp. repeat split.
    + cbn [length]. now rewrite Hlen.
    + intros [|i] it Hi.
      * cbn in Hi. injection Hi as <-.
        replace (index + Z.of_nat 0) with index by lia. now rewrite Hrec.
      * cbn in Hi. replace (index + Z.of_nat (S i)) with (index + 1 + Z.of_nat i) by lia.
        rewrite <- (Hrows i it Hi). reflexivity.
    + exact Hwarn.
Qed.

(** The row of the item at position [i] (from 0), if it has one. *)
Definition row_at (index : Z) (i : nat) (item : value) : option (list value) :=
  export_record (index + Z.of_nat i) item.

(** The export records of the items that have one, in order, each with
    the position of its item counted from 1. *)
Definition export_records (items : list value) : list (list value) :=
  omap id (imap (row_at 1) items).

Lemma imap_shift {A B} (f g : nat -> A -> B) (l : list A) :
  (forall i x, f i x = g i x) -> imap f l = imap g l.
Proof. intros H. apply imap_ext. intros i x _. apply H. Qed.

Lemma kept_rows_imap items :
  forall index, kept_rows index items = omap id (imap (row_at index) items).
Proof.
  induction items as [|item rest IH]; intros index; [reflexivity|].
  cbn [kept_rows imap omap]. unfold row_at at 1.
  replace (index + Z.of_nat 0) with index by lia.
  rewrite IH.
  rewrite (imap_shift (row_at (index + 1)) (row_at index ∘ S)).
  - destruct (export_record index item); reflexivity.
  - intros i x. unfold row_at, compose. f_equal. lia.
Qed.

Lemma kept_rows_export_records items : kept_rows 1 items = export_records items.
Proof. apply kept_rows_imap. Qed.

(** The control characters openpyxl refuses in a string. *)
Definition illegal_character (c : ascii) : bool :=
  let n := nat_of_ascii c in
  (n <=? 8)%nat || (n =? 11)%nat || (n =? 12)%nat || ((14 <=? n)%nat && (n <=? 31)%nat).

Fixpoint has_illegal_character (s : string) : bool :=
  match s with
  | EmptyString => false
  | String c s' => illegal_character c || has_illegal_character s'
  end.

(** A library that refuses a string with such a character and stores every
    other cell as it is. *)
Definition refusing_control_characters (v : value) : option value :=
  match v with
  | VStr s => if has_illegal_character s then None else Some v
  | _ => Some v
  end.

(** ** Display and export of a whole response *)

(** The pagination block of a response: page index, page size, total. *)
Definition pagination_of (api_response : value) : option (value * value * value) :=
  match lookup_key "meta" api_response with
  | Some meta =>
      match lookup_key "pagination" meta with
      | Some p =>
          match lookup_key "page_index" p, lookup_key "page_size" p, lookup_key "total" p with
          | Some page_index, Some page_size, Some total => Some (page_index, page_size, total)
          | _, _, _ => None
          end
      | None => None
      end
  | None => None
  end.

Definition blank_line : output := Print [Lit newline].

Definition summary_line (p : value * value * value) : output :=
  Print [Lit "页码：第"; Fmt (fst (fst p)); Lit "页 共"; Fmt (snd (fst p));
         Lit "页 总数量："; Fmt (snd p); Lit "个"].

Definition query_line (query_term : string) : output :=
  Print [Lit "查询内容："; Fmt (VStr query_term)].

Definition exported_line (query_term : string) : output :=
  Print [Lit "结果已成功导出至当前目录下的"; Fmt (VStr (file_name query_term)); Lit "文件。"].

Definition export_path (E : env) (query_term : string) : string :=
  path_join (getcwd E) (file_name query_term).

Lemma pagination_of_inv api_response p :
  pagination_of api_response = Some p ->
  exists d m pd,
    api_response = VDict d /\ dict_get "meta" d = Some (VDict m)
    /\ dict_get "pagination" m = Some (VDict pd)
    /\ dict_get "page_index" pd = Some (fst (fst p))
    /\ dict_get "page_size" pd = Some (snd (fst p))
    /\ dict_get "total" pd = Some (snd p).
Proof.
  unfold pagination_of.
  destruct api_response as [| | | | | |d]; try discriminate. cbn [lookup_key].
  destruct (dict_get "meta" d) as [[| | | | | |m]|] eqn:Hm; try discriminate. cbn [lookup_key].
  destruct (dict_get "pagination" m) as [[| | | | | |pd]|] eqn:Hp; try discriminate.
  cbn [lookup_key].
  destruct (dict_get "page_index" pd) as [a|] eqn:Ha; [|discriminate].
  destruct (dict_get "page_size" pd) as [b|] eqn:Hb; [|discriminate].
  destruct (dict_get "total" pd) as [c|] eqn:Hc; [|discriminate].
  intros [= <-]. now exists d, m, pd.
Qed.

(** The console after [display_results] of [360QuakeForCMD.py] on a
    response of result items: the summary, the query, one warning for each
    item without the HTTP sub-structure, then the table of the others. *)
Lemma display_results_skips self api_response p items start_page result_count query_term w :
  pagination_of api_response = Some p ->
  lookup_key "data" api_response = Some (VList items) ->
  forallb result_item items = true ->
  Cmd.display_results self api_response start_page result_count query_term w
  = (write_lines ([blank_line; summary_line p; query_line query_term]
                  ++ skip_warnings 1 items
                  ++ [PrintTable field_names (kept_rows 1 items)]) w,
     inr tt).
Proof.
  intros Hp Hdata Hitems.
  destruct (pagination_of_inv _ _ Hp) as (d & m & pd & -> & Hm & Hpd & Ha & Hb & Hc).
  cbn [lookup_key] in Hdata.
  unfold Cmd.display_results, Cmd.pagination, subscript, iterate. run.
  unfold bind at 1. rewrite add_rows_skips by assumption.
  unfold print. rewrite !write_stdout_lines, !write_lines_app. reflexivity.
Qed.

(** The same for [quake_query.py], which is only right when no item lacks
    the sub-structure. *)
Lemma plain_display_results_full self api_response p items start_page result_count
    query_term w :
  pagination_of api_response = Some p ->
  lookup_key "data" api_response = Some (VList items) ->
  forallb result_item items = true ->
  forallb has_http items = true ->
  Plain.display_results self api_response start_page result_count query_term w
  = (write_lines [blank_line; summary_line p; query_line query_term;
                  PrintTable field_names (kept_rows 1 items)] w,
     inr tt).
Proof.
  intros Hp Hdata Hitems Hhttp.
  destruct (pagination_of_inv _ _ Hp) as (d & m & pd & -> & Hm & Hpd & Ha & Hb & Hc).
  cbn [lookup_key] in Hdata.
  unfold Plain.display_results, Plain.pagination, subscript, iterate. run.
  unfold bind at 1. rewrite plain_add_rows_full by assumption.
  unfold print. rewrite !write_stdout_lines, !write_lines_app. reflexivity.
Qed.

Lemma export_to_excel_full E self api_response items query_term w :
  lookup_key "data" api_response = Some (VList items) ->
  forallb result_item items = true ->
  forallb has_http items = true ->
  Cmd.export_to_excel E self api_response query_term w
  = if can_create E (export_path E query_term)
    then match store_rows E (kept_rows 1 items) with
         | Some stored =>
             (write_stdout (exported_line query_term)
                (write_file (export_path E query_term)
                   {| columns := field_names; records := stored |} w),
              inr tt)
         | None =>
             (leave_truncated (export_path E query_term)
                {| columns := field_names; records := kept_rows 1 items |} w,
              inl IllegalCharacterError)
         end
    else (w, inl (OSError (export_path E query_term))).
Proof.
  intros Hdata Hitems Hhttp.
  destruct api_response as [| | | | | |d]; try discriminate. cbn [lookup_key] in Hdata.
  unfold Cmd.export_to_excel, subscript, iterate. run.
  unfold bind at 1. rewrite export_rows_full by assumption. cbv zeta.
  unfold bind, to_excel. fold (export_path E query_term). cbn [records columns].
  destruct (can_create E (export_path E query_term)); [|reflexivity].
  change (0 + 1) with 1.
  destruct (store_rows E (kept_rows 1 items)); reflexivity.
Qed.

(** A response of one item whose host holds a control character. *)
Definition control_character_host : string := String "a" (String "001" "b").

Definition item_with_control_character : value :=
  VDict [("ip", VStr "1.1.1.1"); ("port", VInt 80);
         ("service", VDict [("http", VDict [("host", VStr control_character_host)])])].

Definition control_character_response : value :=
  VDict [("meta", VDict [("pagination",
            VDict [("page_index", VInt 1); ("page_size", VInt 1); ("total", VInt 1)])]);
         ("data", VList [item_with_control_character])].

(** The working directory can be written to, and the library refuses
    control characters. *)
Definition writable_directory : env :=
  {| post := fun _ => NoResponse "";
     json_loads := fun _ => None;
     json_error := fun _ => Malformed;
     getcwd := "/tmp";
     can_create := fun _ => true;
     excel_cell := refusing_control_characters |}.

(** C3, as stated, at a response whose one item has the HTTP sub-structure
    and a host with a control character: the table is printed with its one
    row, but the export raises at the cell of the host and leaves no sheet
    of [len(data)] rows, only the file of the interrupted write. *)
Lemma export_refuses_control_character :
  let self := {| api_key := "k" |} in
  let row := [VInt 1; VStr control_character_host; VStr "1.1.1.1"; VInt 80] in
  forallb has_http [item_with_control_character] = true
  /\ Cmd.display_results self control_character_response (SInt 1) (SInt 1) "q" empty_world
     = (write_lines [Print [Lit newline];
                     Print [Lit "页码：第"; Fmt (VInt 1); Lit "页 共"; Fmt (VInt 1);
                            Lit "页 总数量："; Fmt (VInt 1); Lit "个"];
                     Print [Lit "查询内容："; Fmt (VStr "q")];
                     PrintTable field_names [row]] empty_world, inr tt)
  /\ Cmd.export_to_excel writable_directory self control_character_response "q" empty_world
     = (leave_truncated "/tmp/quake_results_q.xlsx"
          {| columns := field_names; records := [row] |} empty_world,
        inl IllegalCharacterError)
  /\ files (fst (Cmd.export_to_excel writable_directory self control_character_response "q"
                    empty_world)) !! "/tmp/quake_results_q.xlsx"
     <> Some (Workbook {| columns := field_names; records := [row] |}).
Proof.
  cbv zeta. split; [reflexivity|]. split; [reflexivity|].
  assert (H : Cmd.export_to_excel writable_directory {| api_key := "k" |}
                control_character_response "q" empty_world
              = (leave_truncated "/tmp/quake_results_q.xlsx"
                   {| columns := field_names;
                      records := [[VInt 1; VStr control_character_host; VStr "1.1.1.1";
                                   VInt 80]] |} empty_world,
                 inl IllegalCharacterError)) by reflexivity.
  split; [exact H|]. rewrite H. cbn [fst files leave_truncated].
  rewrite lookup_insert_eq. discriminate.
Qed.

(** C3, amended: for a response whose items all are result items with the
    HTTP sub-structure, the table printed by [display_results] holds
    exactly the export records of the items: as many rows as items, the
    row at position [i] (from 1) being (i, host, ip, port) of the item at
    that position.  When moreover the file can be created and the
    spreadsheet library stores the cells of these records as they are,
    [export_to_excel] ends normally and the file at the export path is the
    workbook of the same header and the same rows. *)
Theorem full_response_rows (E : env) (self : QuakeQuery) (api_response : value)
    (p : value * value * value) (items : list value)
    (start_page result_count : scalar) (query_term : string) (w : world) :
  pagination_of api_response = Some p ->
  lookup_key "data" api_response = Some (VList items) ->
  forallb result_item items = true ->
  forallb has_http items = true ->
  let rows := export_records items in
  Cmd.display_results self api_response start_page result_count query_term w
    = (write_lines [blank_line; summary_line p; query_line query_term;
                    PrintTable field_names rows] w, inr tt)
  /\ length rows = length items
  /\ (forall (i : nat) item, items !! i = Some item ->
        rows !! i = export_record (Z.of_nat i + 1) item
        /\ exists host ip port, rows !! i = Some [VInt (Z.of_nat i + 1); host; ip; port])
  /\ (can_create E (export_path E query_term) = true ->
      store_rows E rows = Some rows ->
      snd (Cmd.export_to_excel E self api_response query_term w) = inr tt
      /\ files (fst (Cmd.export_to_excel E self api_response query_term w))
           !! export_path E query_term
         = Some (Workbook {| columns := field_names; records := rows |})
      /\ stdout (fst (Cmd.export_to_excel E self api_response query_term w))
         = stdout w ++ [exported_line query_term]).
Proof.
  intros Hp Hdata Hitems Hhttp. cbv zeta. rewrite <- kept_rows_export_records.
  destruct (kept_rows_full items 1 Hitems Hhttp) as (Hlen & Hrows & Hwarn).
  split; [|split; [exact Hlen|split]].
  - rewrite (display_results_skips _ _ p items) by assumption. now rewrite Hwarn.
  - intros i item Hi. split.
    + rewrite (Hrows i item) by assumption. f_equal. lia.
    + rewrite (Hrows i item) by assumption.
      assert (Hin : item ∈ items) by (apply list_elem_of_lookup; eauto).
      rewrite forallb_forall in Hitems, Hhttp.
      apply list_elem_of_In in Hin.
      destruct (full_item_inv item (Hitems _ Hin) (Hhttp _ Hin))
        as (d & ip & port & s & h & host & _ & _ & _ & _ & _ & _ & Hrec).
      exists host, ip, port. rewrite Hrec. do 3 f_equal. lia.
  - intros Hfile Hstore.
    rewrite (export_to_excel_full _ _ _ items) by assumption. rewrite Hfile, Hstore.
    cbn. split; [reflexivity|]. split; [apply lookup_insert_eq|reflexivity].
Qed.

(** ** The two variants of [display_results] *)

Lemma bind_ext {A B} (m : M A) (f g : A -> M B) w :
  (forall a w', f a w' = g a w') -> bind m f w = bind m g w.
Proof. intros H. unfold bind. destruct (m w) as [w' [e|a]]; [reflexivity|apply H]. Qed.

Lemma has_http_inv item :
  has_http item = true ->
  exists d s h, item = VDict d /\ dict_get "service" d = Some (VDict s)
                /\ dict_get "http" s = Some h.
Proof.
  unfold has_http, http_of. destruct item as [| | | | | |d]; try discriminate.
  cbn [lookup_key].
  destruct (dict_get "service" d) as [[| | | | | |s]|] eqn:Hs; try discriminate.
  destruct (dict_get "http" s) as [h|] eqn:Hh; [|discriminate].
  intros _. now exists d, s, h.
Qed.

(** On items that all have the HTTP sub-structure the guarded loop and the
    unguarded loop do the same, whatever else the items hold. *)
Lemma add_rows_agree items :
  forall index table w,
    forallb has_http items = true ->
    Plain.add_rows index items table w = Cmd.add_rows index items table w.
Proof.
  induction items as [|item rest IH]; intros index table w Hh; [reflexivity|].
  cbn [forallb] in Hh. apply andb_true_iff in Hh as [Hitem Hrest].
  destruct (has_http_inv item Hitem) as (d & s & h & -> & Hservice & Hhttp).
  cbn [Plain.add_rows Cmd.add_rows]. unfold subscript, contains. run.
  destruct (getitem h "host") as [e|host] eqn:Hhost; run; [reflexivity|].
  destruct (getitem (VDict d) "ip") as [e|ip] eqn:Hip; run; [reflexivity|].
  destruct (getitem (VDict d) "port") as [e|port] eqn:Hport; run; [reflexivity|].
  now apply IH.
Qed.

(** C9: on every response whose data items all contain the service.http
    sub-structure, [display_results] of [quake_query.py] and of
    [360QuakeForCMD.py] leave the same console (the same summary, the same
    table rows) and end the same way. *)
Theorem display_results_agree (self : QuakeQuery) (api_response : value)
    (items : list value) (start_page result_count : scalar) (query_term : string)
    (w : world) :
  lookup_key "data" api_response = Some (VList items) ->
  forallb has_http items = true ->
  Plain.display_results self api_response start_page result_count query_term w
  = Cmd.display_results self api_response start_page result_count query_term w.
Proof.
  intros Hdata Hhttp.
  destruct api_response as [| | | | | |d]; try discriminate. cbn [lookup_key] in Hdata.
  unfold Plain.display_results, Cmd.display_results.
  apply bind_ext; intros _ w1.
  apply bind_ext; intros page_index w2.
  apply bind_ext; intros page_size w3.
  apply bind_ext; intros total w4.
  apply bind_ext; intros _ w5.
  apply bind_ext; intros _ w6.
  unfold subscript, iterate. run.
  unfold bind. now rewrite add_rows_agree.
Qed.

(** ** An item without the HTTP sub-structure *)

Definition item_with_http : value :=
  VDict [("ip", VStr "1.1.1.1"); ("port", VInt 80);
         ("service", VDict [("name", VStr "http");
                            ("http", VDict [("host", VStr "a.com")])])].

Definition item_without_http : value :=
  VDict [("ip", VStr "2.2.2.2"); ("port", VInt 22);
         ("service", VDict [("name", VStr "ssh")])].

(** The mocked response of the specification's scenario: two items, the
    second without the sub-structure. *)
Definition scenario_response : value :=
  VDict [("meta", VDict [("pagination",
            VDict [("page_index", VInt 1); ("page_size", VInt 2); ("total", VInt 2)])]);
         ("data", VList [item_with_http; item_without_http])].

Definition working_directory : env :=
  {| post := fun _ => NoResponse "";
     json_loads := fun _ => None;
     json_error := fun _ => Malformed;
     getcwd := "/tmp";
     can_create := fun _ => true;
     excel_cell := refusing_control_characters |}.

(** C1, at the scenario response: [display_results] of [360QuakeForCMD.py]
    skips the second item with one warning and prints the row of the
    first; [export_to_excel] of the same file raises [KeyError] on the
    second item and writes nothing; [display_results] of [quake_query.py]
    raises the same error before any table is printed. *)
Theorem item_without_http_breaks_export :
  let self := {| api_key := "k" |} in
  let p := (VInt 1, VInt 2, VInt 2) in
  Cmd.display_results self scenario_response (SInt 1) (SInt 2) "city=Beijing" empty_world
  = (write_lines [blank_line; summary_line p; query_line "city=Beijing"; warning_line 2;
                  PrintTable field_names [[VInt 1; VStr "a.com"; VStr "1.1.1.1"; VInt 80]]]
       empty_world, inr tt)
  /\ Cmd.export_to_excel working_directory self scenario_response "city=Beijing" empty_world
     = (empty_world, inl (KeyError "http"))
  /\ Plain.display_results self scenario_response (SInt 1) (SInt 2) "city=Beijing" empty_world
     = (write_lines [blank_line; summary_line p; query_line "city=Beijing"] empty_world,
        inl (KeyError "http")).
Proof. repeat split. Qed.

(** ** Export: failures, empty data, repetition *)

(** A program that reads and writes no state. *)
Definition pure {A} (m : M A) : Prop := exists r, forall w, m w = (w, r).

Lemma pure_lift {A} (r : exn + A) : pure (lift r).
Proof. now exists r. Qed.

Lemma pure_ret {A} (a : A) : pure (ret a).
Proof. now exists (inr a). Qed.

Lemma pure_bind {A B} (m : M A) (f : A -> M B) :
  pure m -> (forall a, pure (f a)) -> pure (bind m f).
Proof.
  intros [[e|a] Hm] Hf.
  - exists (inl e). intros w. unfold bind. now rewrite Hm.
  - destruct (Hf a) as [r Hr]. exists r. intros w. unfold bind. now rewrite Hm.
Qed.

Lemma pure_export_rows items : forall index, pure (Cmd.export_rows index items).
Proof.
  induction items as [|item rest IH]; intros index; cbn [Cmd.export_rows].
  - apply pure_ret.
  - repeat (apply pure_bind; [first [apply pure_lift | apply IH]|intros ?]).
    apply pure_ret.
Qed.

(** [export_to_excel] builds its records without looking at the world, then
    writes the file and prints its message. *)
Lemma export_to_excel_outcome E self api_response query_term :
  exists r : exn + list (list value),
    forall w,
      Cmd.export_to_excel E self api_response query_term w
      = match r with
        | inl e => (w, inl e)
        | inr rows =>
            if can_create E (export_path E query_term)
            then match store_rows E rows with
                 | Some stored =>
                     (write_stdout (exported_line query_term)
                        (write_file (export_path E query_term)
                           {| columns := field_names; records := stored |} w),
                      inr tt)
                 | None =>
                     (leave_truncated (export_path E query_term)
                        {| columns := field_names; records := rows |} w,
                      inl IllegalCharacterError)
                 end
            else (w, inl (OSError (export_path E query_term)))
        end.
Proof.
  destruct (getitem api_response "data") as [e|data_in] eqn:Hdata.
  { exists (inl e). intros w. unfold Cmd.export_to_excel, subscript. now run. }
  destruct (elements_of data_in) as [e|items] eqn:Hitems.
  { exists (inl e). intros w. unfold Cmd.export_to_excel, subscript, iterate. now run. }
  destruct (pure_export_rows items 0) as [r Hr]. exists r. intros w.
  unfold Cmd.export_to_excel, subscript, iterate. run.
  unfold bind at 1. rewrite Hr. destruct r as [e|rows]; [reflexivity|].
  cbv zeta. fold (export_path E query_term). unfold bind, to_excel. cbn [records columns].
  destruct (can_create E (export_path E query_term)); [|reflexivity].
  destruct (store_rows E rows); reflexivity.
Qed.

Definition fails_with {A} (c : error_class) (r : world * (exn + A)) : Prop :=
  exists e, snd r = inl e /\ classify e = c.

(** C2, as stated, at a response whose data array is empty: the export does
    not fail, it writes the sheet of the header alone. *)
Lemma export_of_empty_data_succeeds :
  let self := {| api_key := "k" |} in
  let api_response := VDict [("data", VList [])] in
  Cmd.export_to_excel working_directory self api_response "q" empty_world
  = (write_stdout (exported_line "q")
       (write_file "/tmp/quake_results_q.xlsx" {| columns := field_names; records := [] |}
          empty_world), inr tt)
  /\ ~ fails_with ExportError
         (Cmd.export_to_excel working_directory self api_response "q" empty_world).
Proof.
  cbv zeta.
  assert (H : Cmd.export_to_excel working_directory {| api_key := "k" |}
                (VDict [("data", VList [])]) "q" empty_world
              = (write_stdout (exported_line "q")
                   (write_file "/tmp/quake_results_q.xlsx"
                      {| columns := field_names; records := [] |} empty_world), inr tt))
    by reflexivity.
  split; [exact H|]. rewrite H. intros (e & He & _). discriminate.
Qed.

(** C2, amended: the export fails with the error of the write, an
    [ExportError], when the file cannot be created; it fails with
    [KeyError], a data-shape error, when the response has no [data]; on an
    empty [data] array it succeeds, writing the header row alone and
    printing its message.  In the two failures the world is untouched. *)
Theorem export_failures (E : env) (self : QuakeQuery) (query_term : string) (w : world) :
  (forall api_response items,
      lookup_key "data" api_response = Some (VList items) ->
      forallb result_item items = true ->
      forallb has_http items = true ->
      can_create E (export_path E query_term) = false ->
      Cmd.export_to_excel E self api_response query_term w
        = (w, inl (OSError (export_path E query_term)))
      /\ fails_with ExportError (Cmd.export_to_excel E self api_response query_term w))
  /\ (forall d,
        dict_get "data" d = None ->
        Cmd.export_to_excel E self (VDict d) query_term w = (w, inl (KeyError "data"))
        /\ fails_with DataShapeError (Cmd.export_to_excel E self (VDict d) query_term w))
  /\ (forall api_response,
        lookup_key "data" api_response = Some (VList []) ->
        can_create E (export_path E query_term) = true ->
        Cmd.export_to_excel E self api_response query_term w
        = (write_stdout (exported_line query_term)
             (write_file (export_path E query_term)
                {| columns := field_names; records := [] |} w), inr tt)).
Proof.
  split; [|split].
  - intros api_response items Hdata Hitems Hhttp Hfile.
    rewrite (export_to_excel_full _ _ _ items) by assumption. rewrite Hfile.
    split; [reflexivity|]. now exists (OSError (export_path E query_term)).
  - intros d Hdata.
    assert (H : Cmd.export_to_excel E self (VDict d) query_term w = (w, inl (KeyError "data"))).
    { unfold Cmd.export_to_excel, subscript. now run. }
    split; [exact H|]. rewrite H. now exists (KeyError "data").
  - intros api_response Hdata Hfile.
    rewrite (export_to_excel_full _ _ _ []) by (assumption || reflexivity).
    now rewrite Hfile.
Qed.

(** C8: when an export has succeeded, the same export run again succeeds,
    derives the same path, and leaves the files as the first run left
    them: the file is replaced by one with the same header and rows. *)
Theorem export_twice_same_rows (E : env) (self : QuakeQuery) (api_response : value)
    (query_term : string) (w w1 : world) :
  Cmd.export_to_excel E self api_response query_term w = (w1, inr tt) ->
  exists df w2,
    files w1 !! export_path E query_term = Some df
    /\ Cmd.export_to_excel E self api_response query_term w1 = (w2, inr tt)
    /\ files w2 !! export_path E query_term = Some df
    /\ files w2 = files w1.
Proof.
  intros H.
  destruct (export_to_excel_outcome E self api_response query_term) as [[e|rows] Hr].
  - rewrite Hr in H. discriminate.
  - rewrite Hr in H. rewrite Hr.
    destruct (can_create E (export_path E query_term)); [|discriminate].
    destruct (store_rows E rows) as [stored|]; [|discriminate].
    injection H as <-.
    eexists _, _. split; [|split; [reflexivity|split]].
    + cbn. apply lookup_insert_eq.
    + cbn. apply lookup_insert_eq.
    + cbn. apply insert_insert_eq.
Qed.

(** ** The credential and the console *)

(** Two worlds an observer of the console and of the files cannot tell
    apart; the requests sent, which carry the credential, are left out. *)
Definition same_console (w w' : world) : Prop :=
  stdout w = stdout w' /\ files w = files w'.

(** A program that keeps such worlds indistinguishable and ends the same
    way in both. *)
Definition blind {A} (m : M A) : Prop :=
  forall w w', same_console w w' ->
    same_console (fst (m w)) (fst (m w')) /\ snd (m w) = snd (m w').

Lemma blind_lift {A} (r : exn + A) : blind (lift r).
Proof. intros w w' H. now split. Qed.

Lemma blind_ret {A} (a : A) : blind (ret a).
Proof. intros w w' H. now split. Qed.

Lemma blind_print (o : output) : blind (print o).
Proof.
  intros w w' [Hs Hf]. split; [|reflexivity]. split; cbn; [now rewrite Hs|exact Hf].
Qed.

Lemma blind_to_excel E path df : blind (to_excel E path df).
Proof.
  intros w w' [Hs Hf]. unfold to_excel. destruct (can_create E path).
  - destruct (store_rows E (records df));
      (split; [|reflexivity]); split; cbn; [exact Hs|now rewrite Hf|exact Hs|now rewrite Hf].
  - now split.
Qed.

Lemma blind_bind {A B} (m : M A) (f : A -> M B) :
  blind m -> (forall a, blind (f a)) -> blind (bind m f).
Proof.
  intros Hm Hf w w' H. destruct (Hm w w' H) as [Hw Hr]. unfold bind.
  destruct (m w) as [w1 [e|a]], (m w') as [w1' [e'|a']]; cbn in Hw, Hr; try discriminate.
  - injection Hr as <-. now split.
  - injection Hr as <-. now apply Hf.
Qed.

Create HintDb blind.
#[local] Hint Resolve blind_lift blind_ret blind_print blind_to_excel : blind.

Ltac blind_steps :=
  repeat first [ solve [auto with blind] | apply blind_bind; [|intros ?] ].

Lemma blind_add_rows items : forall index table, blind (Cmd.add_rows index items table).
Proof.
  induction items as [|item rest IH]; intros index table; cbn [Cmd.add_rows].
  - apply blind_ret.
  - unfold subscript, contains.
    apply blind_bind; [apply blind_lift|intros service].
    apply blind_bind; [apply blind_lift|intros present].
    apply blind_bind; [|intros table'; apply IH].
    destruct present; blind_steps.
Qed.

Lemma blind_export_rows items : forall index, blind (Cmd.export_rows index items).
Proof.
  induction items as [|item rest IH]; intros index; cbn [Cmd.export_rows].
  - apply blind_ret.
  - unfold subscript. blind_steps.
Qed.

Lemma blind_plain_add_rows items :
  forall index table, blind (Plain.add_rows index items table).
Proof.
  induction items as [|item rest IH]; intros index table; cbn [Plain.add_rows].
  - apply blind_ret.
  - unfold subscript. blind_steps.
Qed.

#[local] Hint Resolve blind_add_rows blind_export_rows blind_plain_add_rows : blind.

Lemma blind_display_results self api_response start_page result_count query_term :
  blind (Cmd.display_results self api_response start_page result_count query_term).
Proof.
  unfold Cmd.display_results, Cmd.pagination, subscript, iterate. blind_steps.
Qed.

Lemma blind_plain_display_results self api_response start_page result_count query_term :
  blind (Plain.display_results self api_response start_page result_count query_term).
Proof.
  unfold Plain.display_results, Plain.pagination, subscript, iterate. blind_steps.
Qed.

Lemma blind_export_to_excel E self api_response query_term :
  blind (Cmd.export_to_excel E self api_response query_term).
Proof.
  unfold Cmd.export_to_excel, subscript, iterate. cbv zeta. blind_steps.
Qed.

(** With the same answer from the service, two searches end the same way
    and print the same. *)
Lemma search_outcome_blind E r1 r2 w w' :
  post E r1 = post E r2 -> same_console w w' ->
  same_console (fst (search_outcome E r1 w)) (fst (search_outcome E r2 w'))
  /\ snd (search_outcome E r1 w) = snd (search_outcome E r2 w').
Proof.
  intros Hpost [Hs Hf]. unfold search_outcome. rewrite Hpost.
  destruct (post E r2) as [message|why|status_code text].
  - split; [|reflexivity]. split; cbn; [now rewrite Hs|exact Hf].
  - split; [|reflexivity]. split; cbn; [now rewrite Hs|exact Hf].
  - destruct (http_error status_code).
    + split; [|reflexivity]. split; cbn; [now rewrite Hs|exact Hf].
    + destruct (json_loads E text); (split; [|reflexivity]); split; cbn; assumption.
Qed.

Lemma perform_search_blind E self1 self2 query result_count start_page w :
  post E (search_request self1 query result_count start_page)
    = post E (search_request self2 query result_count start_page) ->
  same_console (fst (Cmd.perform_search E self1 query result_count start_page w))
               (fst (Cmd.perform_search E self2 query result_count start_page w))
  /\ snd (Cmd.perform_search E self1 query result_count start_page w)
     = snd (Cmd.perform_search E self2 query result_count start_page w).
Proof.
  intros Hpost. rewrite !perform_search_outcome.
  apply search_outcome_blind; [exact Hpost|now split].
Qed.

(** A run: the search, then programs that are blind. *)
Lemma run_blind {A} E self1 self2 query result_count start_page (k : value -> M A) w :
  post E (search_request self1 query result_count start_page)
    = post E (search_request self2 query result_count start_page) ->
  (forall v, blind (k v)) ->
  same_console
    (fst (bind (Cmd.perform_search E self1 query result_count start_page) k w))
    (fst (bind (Cmd.perform_search E self2 query result_count start_page) k w))
  /\ snd (bind (Cmd.perform_search E self1 query result_count start_page) k w)
     = snd (bind (Cmd.perform_search E self2 query result_count start_page) k w).
Proof.
  intros Hpost Hk.
  destruct (perform_search_blind E self1 self2 query result_count start_page w Hpost)
    as [Hw Hr].
  unfold bind.
  destruct (Cmd.perform_search E self1 query result_count start_page w) as [w1 [e|v]],
           (Cmd.perform_search E self2 query result_count start_page w) as [w2 [e'|v']];
    cbn in Hw, Hr; try discriminate.
  - injection Hr as <-. now split.
  - injection Hr as <-. now apply Hk.
Qed.

(** What [perform_search] prints, read off the way [requests.post]
    ended. *)
Definition search_console (answer : reply) : list output :=
  match answer with
  | Refused message => [error_line (InvalidHeader message)]
  | NoResponse why => [error_line (ConnectionError why)]
  | Response status_code _ =>
      if http_error status_code then [error_line (HTTPError status_code)] else []
  end.

Lemma search_outcome_console E r w :
  stdout (fst (search_outcome E r w)) = stdout w ++ search_console (post E r).
Proof.
  unfold search_outcome, search_console.
  destruct (post E r) as [message|why|status_code text]; [reflexivity|reflexivity|].
  destruct (http_error status_code); [reflexivity|].
  destruct (json_loads E text); cbn; now rewrite app_nil_r.
Qed.

(** A library that refuses a header value with a leading space, quoting
    it in its message, as [requests] does from version 2.28 on; nothing
    answers the other requests. *)
Definition quoting_headers : env :=
  {| post := fun r =>
       match headers r with
       | [(_, v)] =>
           if String.prefix " " v
           then Refused ("Invalid leading whitespace, reserved character(s), or return "
                         +:+ "character(s) in header value: '" +:+ v +:+ "'")
           else NoResponse ""
       | _ => NoResponse ""
       end;
     json_loads := fun _ => None;
     json_error := fun _ => Malformed;
     getcwd := "/tmp";
     can_create := fun _ => true;
     excel_cell := refusing_control_characters |}.

(** C10, as stated, at two credentials with a leading space: the library
    refuses the header, its message quotes the credential, the [except]
    branch prints it, and two runs that differ in the credential alone
    differ on the console. *)
Lemma credential_echoed :
  let args := {| search := Some "city=Beijing"; size := SInt 2; page := SInt 1 |} in
  let one := {| api_key := " one" |} in
  let two := {| api_key := " two" |} in
  stdout (fst (Cmd.main quoting_headers one args empty_world))
  = [error_line (InvalidHeader
       "Invalid leading whitespace, reserved character(s), or return character(s) in header value: ' one'")]
  /\ stdout (fst (Cmd.main quoting_headers one args empty_world))
     <> stdout (fst (Cmd.main quoting_headers two args empty_world))
  /\ stdout (fst (Plain.main quoting_headers one args empty_world))
     <> stdout (fst (Plain.main quoting_headers two args empty_world))
  /\ stdout (fst (Cmd.perform_search quoting_headers one "city=Beijing" (SInt 2) (SInt 1)
                     empty_world))
     <> stdout (fst (Cmd.perform_search quoting_headers two "city=Beijing" (SInt 2) (SInt 1)
                       empty_world)).
Proof. cbv zeta. split; [reflexivity|]. repeat split; discriminate. Qed.

(** C10, amended: [display_results] and [export_to_excel] are the same
    programs for any two credentials.  [perform_search] prints nothing of
    its own but the message of the [RequestException] it catches, so what
    it adds to the console is read off the way [requests.post] ended; when
    that is the same for two credentials, [perform_search] prints the same
    and ends the same way, and so does a whole run of either entry
    point. *)
Theorem console_independent_of_api_key (E : env) (self1 self2 : QuakeQuery) :
  Cmd.display_results self1 = Cmd.display_results self2
  /\ Plain.display_results self1 = Plain.display_results self2
  /\ Cmd.export_to_excel E self1 = Cmd.export_to_excel E self2
  /\ (forall query result_count start_page w,
        stdout (fst (Cmd.perform_search E self1 query result_count start_page w))
        = stdout w
          ++ search_console (post E (search_request self1 query result_count start_page)))
  /\ (forall query result_count start_page w,
        post E (search_request self1 query result_count start_page)
          = post E (search_request self2 query result_count start_page) ->
        stdout (fst (Cmd.perform_search E self1 query result_count start_page w))
          = stdout (fst (Cmd.perform_search E self2 query result_count start_page w))
        /\ snd (Cmd.perform_search E self1 query result_count start_page w)
           = snd (Cmd.perform_search E self2 query result_count start_page w))
  /\ (forall args w,
        (forall query, post E (search_request self1 query (size args) (page args))
                       = post E (search_request self2 query (size args) (page args))) ->
        stdout (fst (Cmd.main E self1 args w)) = stdout (fst (Cmd.main E self2 args w))
        /\ snd (Cmd.main E self1 args w) = snd (Cmd.main E self2 args w)
        /\ stdout (fst (Plain.main E self1 args w)) = stdout (fst (Plain.main E self2 args w))
        /\ snd (Plain.main E self1 args w) = snd (Plain.main E self2 args w)).
Proof.
  split; [reflexivity|]. split; [reflexivity|]. split; [reflexivity|]. split; [|split].
  - intros query result_count start_page w.
    rewrite perform_search_outcome. apply search_outcome_console.
  - intros query result_count start_page w Hpost.
    destruct (perform_search_blind E self1 self2 query result_count start_page w Hpost)
      as [[Hs _] Hr].
    now split.
  - intros args w Hpost.
    assert (Hcmd : same_console (fst (Cmd.main E self1 args w)) (fst (Cmd.main E self2 args w))
                   /\ snd (Cmd.main E self1 args w) = snd (Cmd.main E self2 args w)).
    { unfold Cmd.main. destruct (truthy (search args)) as [query|]; [|now repeat split].
      apply run_blind; [apply Hpost|intros v].
      apply blind_bind; [apply blind_display_results|intros ?].
      apply blind_bind; [apply blind_export_to_excel|intros ?; apply blind_print]. }
    assert (Hplain : same_console (fst (Plain.main E self1 args w))
                       (fst (Plain.main E self2 args w))
                     /\ snd (Plain.main E self1 args w) = snd (Plain.main E self2 args w)).
    { unfold Plain.main. destruct (truthy (search args)) as [query|]; [|now repeat split].
      rewrite perform_search_same.
      apply run_blind; [apply Hpost|intros v].
      exact (blind_plain_display_results self1 v (page args) (size args) query). }
    destruct Hcmd as [[Hc _] Hcr], Hplain as [[Hp _] Hpr]. now repeat split.
Qed.

(** ** The theorems at concrete inputs *)

Definition second_item_with_http : value :=
  VDict [("ip", VStr "3.3.3.3"); ("port", VInt 443);
         ("service", VDict [("http", VDict [("host", VStr "b.com")])])].

(** A response of two items, both with the HTTP sub-structure. *)
Definition full_response : value :=
  VDict [("meta", VDict [("pagination",
            VDict [("page_index", VInt 1); ("page_size", VInt 2); ("total", VInt 2)])]);
         ("data", VList [item_with_http; second_item_with_http])].

Definition read_only_directory : env :=
  {| post := fun _ => NoResponse "";
     json_loads := fun _ => None;
     json_error := fun _ => Malformed;
     getcwd := "/tmp";
     can_create := fun _ => false;
     excel_cell := refusing_control_characters |}.

Lemma full_response_rows_witness :
  let rows := [[VInt 1; VStr "a.com"; VStr "1.1.1.1"; VInt 80];
               [VInt 2; VStr "b.com"; VStr "3.3.3.3"; VInt 443]] in
  export_records [item_with_http; second_item_with_http] = rows
  /\ Cmd.display_results {| api_key := "k" |} full_response (SInt 1) (SInt 2) "city=Beijing"
       empty_world
     = (write_lines [blank_line; summary_line (VInt 1, VInt 2, VInt 2);
                     query_line "city=Beijing";
                     PrintTable field_names
                       (export_records [item_with_http; second_item_with_http])]
          empty_world, inr tt)
  /\ snd (Cmd.export_to_excel working_directory {| api_key := "k" |} full_response
            "city=Beijing" empty_world) = inr tt
  /\ files (fst (Cmd.export_to_excel working_directory {| api_key := "k" |} full_response
                    "city=Beijing" empty_world))
       !! export_path working_directory "city=Beijing"
     = Some (Workbook {| columns := field_names;
                         records := export_records
                                      [item_with_http; second_item_with_http] |}).
Proof.
  cbv zeta. split; [reflexivity|].
  destruct (full_response_rows working_directory {| api_key := "k" |} full_response
              (VInt 1, VInt 2, VInt 2) [item_with_http; second_item_with_http]
              (SInt 1) (SInt 2) "city=Beijing" empty_world)
    as (Hdisplay & _ & _ & Hexport); try reflexivity.
  destruct Hexport as (Hend & Hfile & _); try reflexivity.
  split; [exact Hdisplay|]. split; [exact Hend|exact Hfile].
Defined.

Lemma display_results_agree_witness :
  Plain.display_results {| api_key := "k" |} full_response (SInt 1) (SInt 2) "city=Beijing"
    empty_world
  = Cmd.display_results {| api_key := "k" |} full_response (SInt 1) (SInt 2) "city=Beijing"
      empty_world.
Proof.
  apply (display_results_agree {| api_key := "k" |} full_response
           [item_with_http; second_item_with_http]); reflexivity.
Defined.

Lemma export_failures_witness :
  (Cmd.export_to_excel read_only_directory {| api_key := "k" |} full_response "q" empty_world
     = (empty_world, inl (OSError "/tmp/quake_results_q.xlsx")))
  /\ (Cmd.export_to_excel working_directory {| api_key := "k" |} (VDict []) "q" empty_world
        = (empty_world, inl (KeyError "data")))
  /\ (Cmd.export_to_excel working_directory {| api_key := "k" |}
        (VDict [("data", VList [])]) "q" empty_world
      = (write_stdout (exported_line "q")
           (write_file "/tmp/quake_results_q.xlsx"
              {| columns := field_names; records := [] |} empty_world), inr tt)).
Proof.
  destruct (export_failures read_only_directory {| api_key := "k" |} "q" empty_world)
    as (Hfile & _ & _).
  destruct (export_failures working_directory {| api_key := "k" |} "q" empty_world)
    as (_ & Habsent & Hempty).
  split; [|split].
  - apply (Hfile full_response [item_with_http; second_item_with_http]); reflexivity.
  - apply (Habsent []); reflexivity.
  - apply (Hempty (VDict [("data", VList [])])); reflexivity.
Defined.

Lemma export_twice_same_rows_witness :
  let w1 := write_stdout (exported_line "q")
              (write_file "/tmp/quake_results_q.xlsx"
                 {| columns := field_names;
                    records := [[VInt 1; VStr "a.com"; VStr "1.1.1.1"; VInt 80];
                                [VInt 2; VStr "b.com"; VStr "3.3.3.3"; VInt 443]] |}
                 empty_world) in
  exists df w2,
    files w1 !! export_path working_directory "q" = Some df
    /\ Cmd.export_to_excel working_directory {| api_key := "k" |} full_response "q" w1
       = (w2, inr tt)
    /\ files w2 !! export_path working_directory "q" = Some df
    /\ files w2 = files w1.
Proof.
  cbv zeta.
  apply (export_twice_same_rows working_directory {| api_key := "k" |} full_response "q"
           empty_world).
  reflexivity.
Defined.

Lemma console_independent_of_api_key_witness :
  stdout (fst (Cmd.perform_search refused {| api_key := "one" |} "city=Beijing"
                 (SInt 2) (SInt 1) empty_world))
  = stdout (fst (Cmd.perform_search refused {| api_key := "two" |} "city=Beijing"
                   (SInt 2) (SInt 1) empty_world))
  /\ stdout (fst (Cmd.main not_modified {| api_key := "one" |}
                    {| search := Some "city=Beijing"; size := SInt 2; page := SInt 1 |}
                    empty_world))
     = stdout (fst (Cmd.main not_modified {| api_key := "two" |}
                      {| search := Some "city=Beijing"; size := SInt 2; page := SInt 1 |}
                      empty_world)).
Proof.
  split.
  - destruct (console_independent_of_api_key refused {| api_key := "one" |}
                {| api_key := "two" |}) as (_ & _ & _ & _ & Hsearch & _).
    apply Hsearch. reflexivity.
  - destruct (console_independent_of_api_key not_modified {| api_key := "one" |}
                {| api_key := "two" |}) as (_ & _ & _ & _ & _ & Hmain).
    apply Hmain. intros query. reflexivity.
Defined.

(** * Further properties of the code *)

(** ** What display and export leave alone *)

(** From [w] to [w'] only the console has changed, and it has only grown. *)
Definition console_grew (w w' : world) : Prop :=
  sent w' = sent w /\ files w' = files w /\ exists os, stdout w' = stdout w ++ os.

Definition console_only {A} (m : M A) : Prop := forall w, console_grew w (fst (m w)).

Lemma console_grew_refl w : console_grew w w.
Proof. repeat split. exists []. now rewrite app_nil_r. Qed.

Lemma console_grew_trans w1 w2 w3 :
  console_grew w1 w2 -> console_grew w2 w3 -> console_grew w1 w3.
Proof.
  intros (Hs & Hf & os & Ho) (Hs' & Hf' & os' & Ho').
  repeat split; [congruence|congruence|].
  exists (os ++ os'). rewrite Ho', Ho. now rewrite app_assoc.
Qed.

Lemma console_only_lift {A} (r : exn + A) : console_only (lift r).
Proof. intros w. apply console_grew_refl. Qed.

Lemma console_only_ret {A} (a : A) : console_only (ret a).
Proof. intros w. apply console_grew_refl. Qed.

Lemma console_only_print (o : output) : console_only (print o).
Proof. intros w. repeat split. now exists [o]. Qed.

Lemma console_only_bind {A B} (m : M A) (f : A -> M B) :
  console_only m -> (forall a, console_only (f a)) -> console_only (bind m f).
Proof.
  intros Hm Hf w. specialize (Hm w). unfold bind.
  destruct (m w) as [w1 [e|a]]; cbn in Hm; [exact Hm|].
  eapply console_grew_trans; [exact Hm|apply Hf].
Qed.

Create HintDb console.
#[local] Hint Resolve console_only_lift console_only_ret console_only_print : console.

Ltac console_steps :=
  repeat first [ solve [auto with console] | apply console_only_bind; [|intros ?] ].

Lemma console_only_add_rows items :
  forall index table, console_only (Cmd.add_rows index items table).
Proof.
  induction items as [|item rest IH]; intros index table; cbn [Cmd.add_rows].
  - apply console_only_ret.
  - unfold subscript, contains.
    apply console_only_bind; [apply console_only_lift|intros service].
    apply console_only_bind; [apply console_only_lift|intros present].
    apply console_only_bind; [|intros table'; apply IH].
    destruct present; console_steps.
Qed.

Lemma console_only_plain_add_rows items :
  forall index table, console_only (Plain.add_rows index items table).
Proof.
  induction items as [|item rest IH]; intros index table; cbn [Plain.add_rows].
  - apply console_only_ret.
  - unfold subscript. console_steps.
Qed.

#[local] Hint Resolve console_only_add_rows console_only_plain_add_rows : console.

Lemma console_only_display_results self api_response start_page result_count query_term :
  console_only (Cmd.display_results self api_response start_page result_count query_term).
Proof.
  unfold Cmd.display_results, Cmd.pagination, subscript, iterate. console_steps.
Qed.

Lemma console_only_plain_display_results self api_response start_page result_count
    query_term :
  console_only (Plain.display_results self api_response start_page result_count query_term).
Proof.
  unfold Plain.display_results, Plain.pagination, subscript, iterate. console_steps.
Qed.

(** X1: whatever the response and however it ends, [display_results] of
    either file sends no request, changes no file, and only adds lines to
    the console. *)
Theorem display_results_console_only (self : QuakeQuery) (api_response : value)
    (start_page result_count : scalar) (query_term : string) (w : world) :
  console_grew w
    (fst (Cmd.display_results self api_response start_page result_count query_term w))
  /\ console_grew w
       (fst (Plain.display_results self api_response start_page result_count query_term w)).
Proof.
  split; [apply console_only_display_results|apply console_only_plain_display_results].
Qed.

(** From [w] to [w'] no request was sent, the console has only grown, and
    no file other than the one at [path] has changed. *)
Definition wrote_at_most (path : string) (w w' : world) : Prop :=
  sent w' = sent w
  /\ (exists os, stdout w' = stdout w ++ os)
  /\ forall p, p <> path -> files w' !! p = files w !! p.

Lemma console_grew_wrote_at_most path w w' : console_grew w w' -> wrote_at_most path w w'.
Proof. intros (Hs & Hf & Ho). repeat split; [exact Hs|exact Ho|]. intros p _. now rewrite Hf. Qed.

Lemma wrote_at_most_trans path w1 w2 w3 :
  wrote_at_most path w1 w2 -> wrote_at_most path w2 w3 -> wrote_at_most path w1 w3.
Proof.
  intros (Hs & (os & Ho) & Hf) (Hs' & (os' & Ho') & Hf').
  repeat split; [congruence| |].
  - exists (os ++ os'). rewrite Ho', Ho. now rewrite app_assoc.
  - intros p Hp. now rewrite Hf', Hf.
Qed.

Lemma export_to_excel_wrote_at_most E self api_response query_term w :
  wrote_at_most (export_path E query_term) w
    (fst (Cmd.export_to_excel E self api_response query_term w)).
Proof.
  destruct (export_to_excel_outcome E self api_response query_term) as [[e|rows] Hr];
    rewrite Hr.
  - apply console_grew_wrote_at_most, console_grew_refl.
  - destruct (can_create E (export_path E query_term)).
    + destruct (store_rows E rows) as [stored|].
      * repeat split; [now eexists|]. intros p Hp. cbn. now apply lookup_insert_ne.
      * repeat split; [exists []; cbn; now rewrite app_nil_r|].
        intros p Hp. cbn. now apply lookup_insert_ne.
    + apply console_grew_wrote_at_most, console_grew_refl.
Qed.

(** X2: [export_to_excel] sends no request and changes no file other than
    the one at the path it derives from the working directory and the query
    term: every other file is as it was, whether the export succeeds or
    fails. *)
Theorem export_to_excel_other_files (E : env) (self : QuakeQuery) (api_response : value)
    (query_term : string) (w : world) (p : string) :
  p <> export_path E query_term ->
  files (fst (Cmd.export_to_excel E self api_response query_term w)) !! p = files w !! p
  /\ sent (fst (Cmd.export_to_excel E self api_response query_term w)) = sent w.
Proof.
  intros Hp.
  destruct (export_to_excel_wrote_at_most E self api_response query_term w) as (Hs & _ & Hf).
  split; [now apply Hf|exact Hs].
Qed.

(** Programs that can only raise [KeyError] or [TypeError]. *)
Definition shape_errors_only {A} (m : M A) : Prop :=
  forall w w' e, m w = (w', inl e) -> classify e = DataShapeError.

Lemma getitem_error v k e : getitem v k = inl e -> classify e = DataShapeError.
Proof.
  destruct v as [| | | | | |d]; cbn; try (now intros [= <-]).
  destruct (dict_get k d); [discriminate|now intros [= <-]].
Qed.

Lemma elements_of_error v e : elements_of v = inl e -> classify e = DataShapeError.
Proof. destruct v; cbn; try discriminate; now intros [= <-]. Qed.

Lemma member_error k v e : member k v = inl e -> classify e = DataShapeError.
Proof. destruct v; cbn; try discriminate; now intros [= <-]. Qed.

Lemma shape_subscript v k : shape_errors_only (subscript v k).
Proof. intros w w' e [= _ H]. now apply getitem_error in H. Qed.

Lemma shape_iterate v : shape_errors_only (iterate v).
Proof. intros w w' e [= _ H]. now apply elements_of_error in H. Qed.

Lemma shape_contains k v : shape_errors_only (contains k v).
Proof. intros w w' e [= _ H]. now apply member_error in H. Qed.

Lemma shape_ret {A} (a : A) : shape_errors_only (ret a).
Proof. intros w w' e. discriminate. Qed.

Lemma shape_print o : shape_errors_only (print o).
Proof. intros w w' e. discriminate. Qed.

Lemma shape_bind {A B} (m : M A) (f : A -> M B) :
  shape_errors_only m -> (forall a, shape_errors_only (f a)) -> shape_errors_only (bind m f).
Proof.
  intros Hm Hf w w' e. unfold bind.
  destruct (m w) as [w1 [e1|a]] eqn:Hmw.
  - intros [= <- <-]. now apply (Hm w w1).
  - apply Hf.
Qed.

Create HintDb shape.
#[local] Hint Resolve shape_subscript shape_iterate shape_contains shape_ret shape_print
  : shape.

Ltac shape_steps :=
  repeat first [ solve [auto with shape] | apply shape_bind; [|intros ?] ].

Lemma shape_export_rows items : forall index, shape_errors_only (Cmd.export_rows index items).
Proof.
  induction items as [|item rest IH]; intros index; cbn [Cmd.export_rows]; shape_steps.
Qed.

Lemma shape_add_rows items :
  forall index table, shape_errors_only (Cmd.add_rows index items table).
Proof.
  induction items as [|item rest IH]; intros index table; cbn [Cmd.add_rows].
  - apply shape_ret.
  - apply shape_bind; [apply shape_subscript|intros service].
    apply shape_bind; [apply shape_contains|intros present].
    apply shape_bind; [|intros table'; apply IH].
    destruct present; shape_steps.
Qed.

Lemma shape_plain_add_rows items :
  forall index table, shape_errors_only (Plain.add_rows index items table).
Proof.
  induction items as [|item rest IH]; intros index table; cbn [Plain.add_rows]; shape_steps.
Qed.

#[local] Hint Resolve shape_export_rows shape_add_rows shape_plain_add_rows : shape.

Lemma shape_display_results self api_response start_page result_count query_term :
  shape_errors_only
    (Cmd.display_results self api_response start_page result_count query_term).
Proof. unfold Cmd.display_results, Cmd.pagination. shape_steps. Qed.

Lemma shape_plain_display_results self api_response start_page result_count query_term :
  shape_errors_only
    (Plain.display_results self api_response start_page result_count query_term).
Proof. unfold Plain.display_results, Plain.pagination. shape_steps. Qed.

(** X3: an export that raises has printed nothing, so no export message,
    and has sent nothing.  When it raises [KeyError] or [TypeError], while
    reading the response, or the error of a file that cannot be created,
    no file has been touched.  When the library refuses a cell, the file
    at the export path has been replaced by what the interrupted write
    left, and that is the only file changed. *)
Theorem failed_export_prints_nothing (E : env) (self : QuakeQuery) (api_response : value)
    (query_term : string) (w w1 : world) (e : exn) :
  Cmd.export_to_excel E self api_response query_term w = (w1, inl e) ->
  stdout w1 = stdout w
  /\ sent w1 = sent w
  /\ ((classify e = DataShapeError /\ w1 = w)
      \/ (e = OSError (export_path E query_term)
          /\ can_create E (export_path E query_term) = false /\ w1 = w)
      \/ (e = IllegalCharacterError
          /\ can_create E (export_path E query_term) = true
          /\ exists rows,
               store_rows E rows = None
               /\ w1 = leave_truncated (export_path E query_term)
                         {| columns := field_names; records := rows |} w)).
Proof.
  unfold Cmd.export_to_excel.
  unfold bind at 1. destruct (subscript api_response "data" w) as [wa [ea|data_in]] eqn:Ha.
  { pose proof Ha as Hw. apply shape_subscript in Ha. injection Hw as <- _.
    intros [= <- <-]. repeat split. now left. }
  injection Ha as <- _.
  unfold bind at 1. destruct (iterate data_in w) as [wb [eb|items]] eqn:Hb.
  { pose proof Hb as Hw. apply shape_iterate in Hb. injection Hw as <- _.
    intros [= <- <-]. repeat split. now left. }
  injection Hb as <- _.
  destruct (pure_export_rows items 0) as [r Hr].
  unfold bind at 1. rewrite Hr. destruct r as [ec|rows].
  { intros [= <- <-]. repeat split. left. split; [|reflexivity].
    now apply (shape_export_rows items 0 w w ec). }
  cbv zeta. fold (export_path E query_term). unfold bind, to_excel. cbn [records columns].
  destruct (can_create E (export_path E query_term)).
  - destruct (store_rows E rows) as [stored|] eqn:Hstore; [discriminate|].
    intros [= <- <-]. repeat split. right. right. repeat split. now exists rows.
  - intros [= <- <-]. repeat split. right. left. now repeat split.
Qed.

(** ** A display that fails *)

Definition is_line (o : output) : bool :=
  match o with
  | Print _ => true
  | PrintTable _ _ => false
  end.

(** Programs that print f-strings only, and programs that have printed
    f-strings only whenever they raise. *)
Definition lines_only {A} (m : M A) : Prop :=
  forall w, exists os, stdout (fst (m w)) = stdout w ++ os /\ forallb is_line os = true.

Definition no_table_on_error {A} (m : M A) : Prop :=
  forall w w1 e, m w = (w1, inl e) ->
    exists os, stdout w1 = stdout w ++ os /\ forallb is_line os = true.

Lemma lines_only_lift {A} (r : exn + A) : lines_only (lift r).
Proof. intros w. exists []. split; [cbn; now rewrite app_nil_r|reflexivity]. Qed.

Lemma lines_only_ret {A} (a : A) : lines_only (ret a).
Proof. intros w. exists []. split; [cbn; now rewrite app_nil_r|reflexivity]. Qed.

Lemma lines_only_print ps : lines_only (print (Print ps)).
Proof. intros w. now exists [Print ps]. Qed.

Lemma lines_only_bind {A B} (m : M A) (f : A -> M B) :
  lines_only m -> (forall a, lines_only (f a)) -> lines_only (bind m f).
Proof.
  intros Hm Hf w. destruct (Hm w) as (os & Ho & Hl). unfold bind.
  destruct (m w) as [w1 [e|a]]; cbn in Ho; [now exists os|].
  destruct (Hf a w1) as (os' & Ho' & Hl'). exists (os ++ os'). split.
  - rewrite Ho', Ho. now rewrite app_assoc.
  - rewrite forallb_app. now rewrite Hl, Hl'.
Qed.

Lemma no_table_on_error_bind {A B} (m : M A) (f : A -> M B) :
  lines_only m -> (forall a, no_table_on_error (f a)) -> no_table_on_error (bind m f).
Proof.
  intros Hm Hf w w2 e. destruct (Hm w) as (os & Ho & Hl). unfold bind.
  destruct (m w) as [w1 [e1|a]]; cbn in Ho.
  - intros [= <- <-]. now exists os.
  - intros H. destruct (Hf a w1 w2 e H) as (os' & Ho' & Hl'). exists (os ++ os'). split.
    + rewrite Ho', Ho. now rewrite app_assoc.
    + rewrite forallb_app. now rewrite Hl, Hl'.
Qed.

Lemma no_table_on_error_print o : no_table_on_error (print o).
Proof. intros w w1 e. discriminate. Qed.

Create HintDb lines.
#[local] Hint Resolve lines_only_lift lines_only_ret lines_only_print : lines.

Ltac lines_steps :=
  repeat first [ solve [auto with lines] | apply lines_only_bind; [|intros ?] ].

Lemma lines_only_add_rows items :
  forall index table, lines_only (Cmd.add_rows index items table).
Proof.
  induction items as [|item rest IH]; intros index table; cbn [Cmd.add_rows].
  - apply lines_only_ret.
  - unfold subscript, contains.
    apply lines_only_bind; [apply lines_only_lift|intros service].
    apply lines_only_bind; [apply lines_only_lift|intros present].
    apply lines_only_bind; [|intros table'; apply IH].
    destruct present; lines_steps.
Qed.

Lemma lines_only_plain_add_rows items :
  forall index table, lines_only (Plain.add_rows index items table).
Proof.
  induction items as [|item rest IH]; intros index table; cbn [Plain.add_rows].
  - apply lines_only_ret.
  - unfold subscript. lines_steps.
Qed.

#[local] Hint Resolve lines_only_add_rows lines_only_plain_add_rows : lines.

Ltac no_table_steps :=
  repeat first [ apply no_table_on_error_print
               | apply no_table_on_error_bind; [solve [lines_steps]|intros ?] ].

(** What follows the first [print] of [display_results]. *)
Lemma display_results_no_table self api_response start_page result_count query_term w w1 e :
  Cmd.display_results self api_response start_page result_count query_term w = (w1, inl e) ->
  exists os, stdout w1 = stdout w ++ blank_line :: os /\ forallb is_line os = true.
Proof.
  unfold Cmd.display_results. rewrite bind_print. intros H.
  assert (Hrest : exists os, stdout w1 = stdout (write_stdout blank_line w) ++ os
                             /\ forallb is_line os = true).
  { revert H.
    match goal with
    | |- ?m _ = _ -> _ => assert (Hm : no_table_on_error m)
    end.
    { unfold Cmd.pagination, subscript, iterate. no_table_steps. }
    apply Hm. }
  destruct Hrest as (os & Ho & Hl). exists os. split; [|exact Hl].
  rewrite Ho. cbn. now rewrite <- app_assoc.
Qed.

Lemma plain_display_results_no_table self api_response start_page result_count query_term
    w w1 e :
  Plain.display_results self api_response start_page result_count query_term w
    = (w1, inl e) ->
  exists os, stdout w1 = stdout w ++ blank_line :: os /\ forallb is_line os = true.
Proof.
  unfold Plain.display_results. rewrite bind_print. intros H.
  assert (Hrest : exists os, stdout w1 = stdout (write_stdout blank_line w) ++ os
                             /\ forallb is_line os = true).
  { revert H.
    match goal with
    | |- ?m _ = _ -> _ => assert (Hm : no_table_on_error m)
    end.
    { unfold Plain.pagination, subscript, iterate. no_table_steps. }
    apply Hm. }
  destruct Hrest as (os & Ho & Hl). exists os. split; [|exact Hl].
  rewrite Ho. cbn. now rewrite <- app_assoc.
Qed.

(** X4: when [display_results] of either file raises, what it raises is a
    [KeyError] or a [TypeError]; the blank line has been printed, then
    f-string lines only: the table is never printed by a display that
    fails. *)
Theorem failed_display_prints_no_table (self : QuakeQuery) (api_response : value)
    (start_page result_count : scalar) (query_term : string) (w w1 : world) (e : exn) :
  Cmd.display_results self api_response start_page result_count query_term w = (w1, inl e)
  \/ Plain.display_results self api_response start_page result_count query_term w
     = (w1, inl e) ->
  classify e = DataShapeError
  /\ exists os, stdout w1 = stdout w ++ blank_line :: os /\ forallb is_line os = true.
Proof.
  intros [H|H]; split.
  - now apply shape_display_results in H.
  - now apply display_results_no_table in H.
  - now apply shape_plain_display_results in H.
  - now apply plain_display_results_no_table in H.
Qed.

(** ** Items without the HTTP sub-structure, in general *)

Lemma item_without_http_inv item :
  result_item item = true -> has_http item = false ->
  exists d s, item = VDict d /\ dict_get "service" d = Some (VDict s)
              /\ dict_get "http" s = None.
Proof.
  intros Hitem Hhttp.
  destruct (result_item_inv item Hitem)
    as (d & ip & port & s & -> & Hip & Hport & Hservice & Hcase).
  unfold has_http, http_of in Hhttp. cbn [lookup_key] in Hhttp. rewrite Hservice in Hhttp.
  exists d, s. repeat split; [exact Hservice|].
  destruct (dict_get "http" s); [discriminate|reflexivity].
Qed.

Lemma export_rows_missing_http items :
  forall index w,
    forallb result_item items = true ->
    forallb has_http items = false ->
    Cmd.export_rows index items w = (w, inl (KeyError "http")).
Proof.
  induction items as [|item rest IH]; intros index w Hr Hh; [discriminate|].
  cbn [forallb] in Hr, Hh. apply andb_true_iff in Hr as [Hitem Hrest].
  cbn [Cmd.export_rows]. unfold subscript.
  destruct (has_http item) eqn:Hhttp.
  - destruct (full_item_inv item Hitem Hhttp)
      as (d & ip & port & s & h & host & -> & Hip & Hport & Hservice & Hsome & Hhost & _).
    run. unfold bind. now rewrite IH.
  - destruct (item_without_http_inv item Hitem Hhttp) as (d & s & -> & Hservice & Hnone).
    now run.
Qed.

Lemma plain_add_rows_missing_http items :
  forall index table w,
    forallb result_item items = true ->
    forallb has_http items = false ->
    Plain.add_rows index items table w = (w, inl (KeyError "http")).
Proof.
  induction items as [|item rest IH]; intros index table w Hr Hh; [discriminate|].
  cbn [forallb] in Hr, Hh. apply andb_true_iff in Hr as [Hitem Hrest].
  cbn [Plain.add_rows]. unfold subscript.
  destruct (has_http item) eqn:Hhttp.
  - destruct (full_item_inv item Hitem Hhttp)
      as (d & ip & port & s & h & host & -> & Hip & Hport & Hservice & Hsome & Hhost & _).
    run. now apply IH.
  - destruct (item_without_http_inv item Hitem Hhttp) as (d & s & -> & Hservice & Hnone).
    now run.
Qed.

Lemma missing_http_raises_key_error_parts E self api_response p items
    start_page result_count query_term :
  pagination_of api_response = Some p ->
  lookup_key "data" api_response = Some (VList items) ->
  forallb result_item items = true ->
  forallb has_http items = false ->
  (forall w, Cmd.export_to_excel E self api_response query_term w
             = (w, inl (KeyError "http")))
  /\ (forall w, Plain.display_results self api_response start_page result_count query_term w
                = (write_lines [blank_line; summary_line p; query_line query_term] w,
                   inl (KeyError "http"))).
Proof.
  intros Hp Hdata Hitems Hhttp.
  destruct (pagination_of_inv _ _ Hp) as (d & m & pd & -> & Hm & Hpd & Ha & Hb & Hc).
  cbn [lookup_key] in Hdata. split; intros w.
  - unfold Cmd.export_to_excel, subscript, iterate. run.
    unfold bind at 1. now rewrite export_rows_missing_http.
  - unfold Plain.display_results, Plain.pagination, subscript, iterate. run.
    unfold bind at 1. rewrite plain_add_rows_missing_http by assumption.
    now rewrite !write_stdout_lines, !write_lines_app.
Qed.

(** X5: on a response of result items of which at least one has no HTTP
    sub-structure, [export_to_excel] raises [KeyError] for the key [http]
    whether or not the file could be created, and [display_results] of
    [quake_query.py] raises the same error once the summary and the query
    have been printed. *)
Theorem missing_http_raises_key_error (E : env) (self : QuakeQuery) (api_response : value)
    (p : value * value * value) (items : list value)
    (start_page result_count : scalar) (query_term : string) (w : world) :
  pagination_of api_response = Some p ->
  lookup_key "data" api_response = Some (VList items) ->
  forallb result_item items = true ->
  forallb has_http items = false ->
  Cmd.export_to_excel E self api_response query_term w = (w, inl (KeyError "http"))
  /\ Plain.display_results self api_response start_page result_count query_term w
     = (write_lines [blank_line; summary_line p; query_line query_term] w,
        inl (KeyError "http")).
Proof.
  intros Hp Hdata Hitems Hhttp.
  destruct (missing_http_raises_key_error_parts E self api_response p items
              start_page result_count query_term Hp Hdata Hitems Hhttp) as [He Hd].
  split; [apply He|apply Hd].
Qed.

Lemma missing_http_raises_key_error_witness :
  Cmd.export_to_excel read_only_directory {| api_key := "k" |} scenario_response
    "city=Beijing" empty_world = (empty_world, inl (KeyError "http"))
  /\ Plain.display_results {| api_key := "k" |} scenario_response (SInt 1) (SInt 2)
       "city=Beijing" empty_world
     = (write_lines [blank_line; summary_line (VInt 1, VInt 2, VInt 2);
                     query_line "city=Beijing"] empty_world,
        inl (KeyError "http")).
Proof.
  apply (missing_http_raises_key_error read_only_directory {| api_key := "k" |}
           scenario_response (VInt 1, VInt 2, VInt 2) [item_with_http; item_without_http]);
    reflexivity.
Defined.

(** ** The skip policy of the guarded display *)

(** The warning for the item at position [i] (from 0), if it has no
    row. *)
Definition warning_at (index : Z) (i : nat) (item : value) : option output :=
  if has_http item then None else Some (warning_line (index + Z.of_nat i)).

Lemma skip_warnings_imap items :
  forall index, skip_warnings index items = omap id (imap (warning_at index) items).
Proof.
  induction items as [|item rest IH]; intros index; [reflexivity|].
  cbn [skip_warnings imap omap]. unfold warning_at at 1.
  replace (index + Z.of_nat 0) with index by lia.
  rewrite IH.
  rewrite (imap_shift (warning_at (index + 1)) (warning_at index ∘ S)).
  - destruct (has_http item); reflexivity.
  - intros i x. unfold warning_at, compose. destruct (has_http x); [reflexivity|].
    do 2 f_equal. lia.
Qed.

Lemma kept_and_skipped items :
  forall index,
    forallb result_item items = true ->
    (length (kept_rows index items) + length (skip_warnings index items))%nat = length items
    /\ length (kept_rows index items) = length (filter (fun x => has_http x = true) items).
Proof.
  induction items as [|item rest IH]; intros index Hr; [now split|].
  cbn [forallb] in Hr. apply andb_true_iff in Hr as [Hitem Hrest].
  destruct (IH (index + 1) Hrest) as [Hsum Hkept].
  cbn [kept_rows skip_warnings]. rewrite filter_cons.
  destruct (has_http item) eqn:Hhttp.
  - destruct (full_item_inv item Hitem Hhttp)
      as (d & ip & port & s & h & host & _ & _ & _ & _ & _ & _ & Hrec).
    rewrite Hrec. rewrite decide_True by reflexivity. cbn [length]. split; lia.
  - assert (Hnone : export_record index item = None).
    { unfold export_record. unfold has_http in Hhttp.
      destruct (http_of item); [discriminate|reflexivity]. }
    rewrite Hnone. rewrite decide_False by discriminate. cbn [length]. split; lia.
Qed.

(** X6: on a response of result items, [display_results] of
    [360QuakeForCMD.py] succeeds.  After the summary and the query it
    prints, in order of position, one warning for each item without the
    HTTP sub-structure, then the table of the export records of the other
    items; rows and warnings carry the position of their item in [data],
    counted from 1, and together they are as many as the items. *)
Theorem display_results_skip_policy (self : QuakeQuery) (api_response : value)
    (p : value * value * value) (items : list value)
    (start_page result_count : scalar) (query_term : string) (w : world) :
  pagination_of api_response = Some p ->
  lookup_key "data" api_response = Some (VList items) ->
  forallb result_item items = true ->
  let rows := omap id (imap (row_at 1) items) in
  let warnings := omap id (imap (warning_at 1) items) in
  Cmd.display_results self api_response start_page result_count query_term w
  = (write_lines ([blank_line; summary_line p; query_line query_term]
                  ++ warnings ++ [PrintTable field_names rows]) w, inr tt)
  /\ (length rows + length warnings)%nat = length items
  /\ length rows = length (filter (fun x => has_http x = true) items).
Proof.
  intros Hp Hdata Hitems. cbv zeta.
  rewrite <- kept_rows_imap, <- skip_warnings_imap.
  split; [now apply display_results_skips|now apply kept_and_skipped].
Qed.

Lemma display_results_skip_policy_witness :
  Cmd.display_results {| api_key := "k" |} scenario_response (SInt 1) (SInt 2)
    "city=Beijing" empty_world
  = (write_lines ([blank_line; summary_line (VInt 1, VInt 2, VInt 2);
                   query_line "city=Beijing"]
                  ++ omap id (imap (warning_at 1) [item_with_http; item_without_http])
                  ++ [PrintTable field_names
                        (omap id (imap (row_at 1) [item_with_http; item_without_http]))])
       empty_world, inr tt)
  /\ (length (omap id (imap (row_at 1) [item_with_http; item_without_http]))
      + length (omap id (imap (warning_at 1) [item_with_http; item_without_http])))%nat
     = length [item_with_http; item_without_http]
  /\ length (omap id (imap (row_at 1) [item_with_http; item_without_http]))
     = length (filter (fun x => has_http x = true) [item_with_http; item_without_http]).
Proof.
  apply (display_results_skip_policy {| api_key := "k" |} scenario_response
           (VInt 1, VInt 2, VInt 2) [item_with_http; item_without_http]); reflexivity.
Defined.

(** ** Whole runs *)

Lemma search_outcome_frame E r w :
  sent (fst (search_outcome E r w)) = sent w ++ [r]
  /\ files (fst (search_outcome E r w)) = files w
  /\ exists os, stdout (fst (search_outcome E r w)) = stdout w ++ os.
Proof.
  split; [apply search_outcome_sent|]. unfold search_outcome.
  destruct (post E r) as [message|why|status_code text].
  - split; [reflexivity|now eexists].
  - split; [reflexivity|now eexists].
  - destruct (http_error status_code); [split; [reflexivity|now eexists]|].
    destruct (json_loads E text); (split; [reflexivity|]); exists []; cbn;
      now rewrite app_nil_r.
Qed.

Lemma console_only_export_sent E self api_response query_term w :
  sent (fst (Cmd.export_to_excel E self api_response query_term w)) = sent w.
Proof. now destruct (export_to_excel_wrote_at_most E self api_response query_term w). Qed.

(** What follows the search in [main] of [360QuakeForCMD.py]. *)
Definition after_search (E : env) (self : QuakeQuery) (args : arguments) (query : string)
    (search_results : value) : M unit :=
  do _ <- Cmd.display_results self search_results (page args) (size args) query;
  do _ <- Cmd.export_to_excel E self search_results query;
  print (Print [Lit "结果已成功导出至当前目录下的quake_results_";
                Fmt (VStr (query_filename query)); Lit ".xlsx文件。"]).

Lemma after_search_wrote_at_most E self args query search_results w :
  wrote_at_most (export_path E query) w
    (fst (after_search E self args query search_results w)).
Proof.
  unfold after_search, bind.
  pose proof (console_only_display_results self search_results (page args) (size args)
                query w) as Hd.
  destruct (Cmd.display_results self search_results (page args) (size args) query w)
    as [w1 [e|[]]]; cbn in Hd; [now apply console_grew_wrote_at_most|].
  pose proof (export_to_excel_wrote_at_most E self search_results query w1) as He.
  destruct (Cmd.export_to_excel E self search_results query w1) as [w2 [e|[]]]; cbn in He.
  - eapply wrote_at_most_trans; [apply console_grew_wrote_at_most, Hd|exact He].
  - eapply wrote_at_most_trans; [apply console_grew_wrote_at_most, Hd|].
    eapply wrote_at_most_trans; [exact He|].
    apply console_grew_wrote_at_most. apply (console_only_print _ w2).
Qed.

Lemma main_unfold E self args query w :
  truthy (search args) = Some query ->
  Cmd.main E self args w
  = bind (Cmd.perform_search E self query (size args) (page args))
      (after_search E self args query) w.
Proof. intros H. unfold Cmd.main. now rewrite H. Qed.

(** X8: a run of either entry point sends exactly one request, the search
    request for the given term, when the search term is a non-empty
    string, and none when [--search] is absent or empty; nothing that
    follows the search, however it ends, sends another. *)
Theorem runs_send_at_most_one_request (E : env) (self : QuakeQuery) (args : arguments)
    (w : world) :
  let requests :=
    match truthy (search args) with
    | Some query => [search_request self query (size args) (page args)]
    | None => []
    end in
  sent (fst (Cmd.main E self args w)) = sent w ++ requests
  /\ sent (fst (Plain.main E self args w)) = sent w ++ requests.
Proof.
  cbv zeta. destruct (truthy (search args)) as [query|] eqn:Hq.
  - split.
    + rewrite (main_unfold _ _ _ query) by assumption. unfold bind.
      rewrite perform_search_outcome.
      destruct (search_outcome_frame E (search_request self query (size args) (page args)) w)
        as (Hs & _ & _).
      destruct (search_outcome E _ w) as [w1 [e|v]]; cbn in Hs; [exact Hs|].
      destruct (after_search_wrote_at_most E self args query v w1) as (Hs' & _ & _).
      now rewrite Hs'.
    + unfold Plain.main. rewrite Hq, perform_search_same. unfold bind.
      rewrite perform_search_outcome.
      destruct (search_outcome_frame E (search_request self query (size args) (page args)) w)
        as (Hs & _ & _).
      destruct (search_outcome E _ w) as [w1 [e|v]]; cbn in Hs; [exact Hs|].
      destruct (console_only_plain_display_results self v (page args) (size args) query w1)
        as (Hs' & _ & _).
      now rewrite Hs'.
  - unfold Cmd.main, Plain.main. rewrite Hq. cbn. now rewrite app_nil_r.
Qed.

(** X9: a run of [quake_query.py] changes no file; a run of
    [360QuakeForCMD.py] leaves every file as it was except, at most, the
    one at the export path of its search term. *)
Theorem runs_write_at_most_one_file (E : env) (self : QuakeQuery) (args : arguments)
    (w : world) (p : string) :
  (forall query, truthy (search args) = Some query -> p <> export_path E query) ->
  files (fst (Cmd.main E self args w)) !! p = files w !! p
  /\ files (fst (Plain.main E self args w)) = files w.
Proof.
  intros Hp. destruct (truthy (search args)) as [query|] eqn:Hq.
  - specialize (Hp query eq_refl).
    destruct (search_outcome_frame E (search_request self query (size args) (page args)) w)
      as (_ & Hf & _).
    split.
    + rewrite (main_unfold _ _ _ query) by assumption. unfold bind.
      rewrite perform_search_outcome.
      destruct (search_outcome E _ w) as [w1 [e|v]]; cbn in Hf; [cbn [fst]; now rewrite Hf|].
      destruct (after_search_wrote_at_most E self args query v w1) as (_ & _ & Hf').
      rewrite Hf' by assumption. now rewrite Hf.
    + unfold Plain.main. rewrite Hq, perform_search_same. unfold bind.
      rewrite perform_search_outcome.
      destruct (search_outcome E _ w) as [w1 [e|v]]; cbn in Hf; [exact Hf|].
      destruct (console_only_plain_display_results self v (page args) (size args) query w1)
        as (_ & Hf' & _).
      now rewrite Hf'.
  - unfold Cmd.main, Plain.main. rewrite Hq. now split.
Qed.

Lemma runs_write_at_most_one_file_witness :
  files (fst (Cmd.main not_modified {| api_key := "k" |}
                {| search := Some "q"; size := SInt 2; page := SInt 1 |} empty_world))
    !! "/tmp/other.xlsx" = files empty_world !! "/tmp/other.xlsx"
  /\ files (fst (Plain.main not_modified {| api_key := "k" |}
                   {| search := Some "q"; size := SInt 2; page := SInt 1 |} empty_world))
     = files empty_world.
Proof.
  apply (runs_write_at_most_one_file not_modified {| api_key := "k" |}
           {| search := Some "q"; size := SInt 2; page := SInt 1 |} empty_world
           "/tmp/other.xlsx").
  intros query [= <-]. discriminate.
Defined.

(** X10: in a run of [360QuakeForCMD.py], when the search has returned a
    response and [display_results] raises on it, the run ends in that
    error: the export is not attempted, and the files are those from
    before the run. *)
Theorem failed_display_stops_the_run (E : env) (self : QuakeQuery) (args : arguments)
    (query : string) (search_results : value) (w w1 w2 : world) (e : exn) :
  truthy (search args) = Some query ->
  Cmd.perform_search E self query (size args) (page args) w = (w1, inr search_results) ->
  Cmd.display_results self search_results (page args) (size args) query w1 = (w2, inl e) ->
  Cmd.main E self args w = (w2, inl e) /\ files w2 = files w.
Proof.
  intros Hq Hs Hd. split.
  - rewrite (main_unfold _ _ _ query) by assumption. unfold bind at 1. rewrite Hs.
    unfold after_search, bind. now rewrite Hd.
  - pose proof (console_only_display_results self search_results (page args) (size args)
                  query w1) as (_ & Hf & _).
    rewrite Hd in Hf. cbn in Hf. rewrite Hf.
    rewrite perform_search_outcome in Hs.
    destruct (search_outcome_frame E (search_request self query (size args) (page args)) w)
      as (_ & Hf' & _).
    rewrite Hs in Hf'. exact Hf'.
Qed.

Lemma failed_display_stops_the_run_witness :
  let args := {| search := Some "q"; size := SInt 2; page := SInt 1 |} in
  let w1 := record_request (search_request {| api_key := "k" |} "q" (SInt 2) (SInt 1))
              empty_world in
  Cmd.main not_modified {| api_key := "k" |} args empty_world
    = (write_stdout blank_line w1, inl (KeyError "meta"))
  /\ files (write_stdout blank_line w1) = files empty_world.
Proof.
  cbv zeta.
  apply (failed_display_stops_the_run not_modified {| api_key := "k" |}
           {| search := Some "q"; size := SInt 2; page := SInt 1 |} "q" (VDict [])
           empty_world
           (record_request (search_request {| api_key := "k" |} "q" (SInt 2) (SInt 1))
              empty_world)); reflexivity.
Defined.

(** The line [main] prints after the export. *)
Definition main_exported_line (query : string) : output :=
  Print [Lit "结果已成功导出至当前目录下的quake_results_";
         Fmt (VStr (query_filename query)); Lit ".xlsx文件。"].

(** X11: a run of [360QuakeForCMD.py] whose search is answered, with a
    status that is not an error status, by a body that decodes to a
    response of result items all with the HTTP sub-structure, whose export
    file can be created and whose export records the library stores as
    they are, ends normally.  It has handed the one request to the
    library, written the workbook of all the rows at the export path, and
    printed, in this order, the blank line, the summary, the query, the
    table, and the export message twice: once by [export_to_excel] and once
    by [main]. *)
Theorem successful_run (E : env) (self : QuakeQuery) (args : arguments) (query : string)
    (status_code : Z) (text : string) (api_response : value)
    (p : value * value * value) (items : list value) (w : world) :
  truthy (search args) = Some query ->
  post E (search_request self query (size args) (page args)) = Response status_code text ->
  http_error status_code = false ->
  json_loads E text = Some api_response ->
  pagination_of api_response = Some p ->
  lookup_key "data" api_response = Some (VList items) ->
  forallb result_item items = true ->
  forallb has_http items = true ->
  can_create E (export_path E query) = true ->
  store_rows E (export_records items) = Some (export_records items) ->
  let rows := export_records items in
  Cmd.main E self args w
  = ({| stdout := stdout w ++ [blank_line; summary_line p; query_line query;
                               PrintTable field_names rows;
                               exported_line query; main_exported_line query];
        sent := sent w ++ [search_request self query (size args) (page args)];
        files := <[export_path E query :=
                     Workbook {| columns := field_names; records := rows |}]>
                   (files w) |}, inr tt)
  /\ length rows = length items.
Proof.
  intros Hq Hpost Hs Hj Hp Hdata Hitems Hhttp Hfile Hstore. cbv zeta.
  rewrite <- kept_rows_export_records in *.
  destruct (kept_rows_full items 1 Hitems Hhttp) as (Hlen & _ & Hwarn).
  split; [|exact Hlen].
  rewrite (main_unfold _ _ _ query) by assumption. unfold bind at 1.
  rewrite perform_search_outcome. unfold search_outcome. rewrite Hpost, Hs, Hj.
  unfold after_search. unfold bind at 1.
  rewrite (display_results_skips _ _ p items) by assumption. rewrite Hwarn.
  unfold bind at 1. rewrite (export_to_excel_full _ _ _ items) by assumption.
  rewrite Hfile, Hstore.
  unfold print, write_stdout, write_file, write_lines, record_request, main_exported_line. cbn.
  do 2 f_equal. rewrite <- !app_assoc. reflexivity.
Qed.

(** A service that answers with status 200 and a body that decodes to the
    response of two full items. *)
Definition answering : env :=
  {| post := fun _ => Response 200 "body";
     json_loads := fun text => if String.eqb text "body" then Some full_response else None;
     json_error := fun _ => Malformed;
     getcwd := "/tmp";
     can_create := fun _ => true;
     excel_cell := refusing_control_characters |}.

Lemma successful_run_witness :
  let self := {| api_key := "k" |} in
  let args := {| search := Some "q"; size := SInt 2; page := SInt 1 |} in
  let rows := export_records [item_with_http; second_item_with_http] in
  Cmd.main answering self args empty_world
  = ({| stdout := stdout empty_world
                  ++ [blank_line; summary_line (VInt 1, VInt 2, VInt 2); query_line "q";
                      PrintTable field_names rows; exported_line "q";
                      main_exported_line "q"];
        sent := sent empty_world ++ [search_request self "q" (SInt 2) (SInt 1)];
        files := <[export_path answering "q" :=
                     Workbook {| columns := field_names; records := rows |}]>
                   (files empty_world) |},
     inr tt)
  /\ length rows = length [item_with_http; second_item_with_http].
Proof.
  cbv zeta.
  apply (successful_run answering {| api_key := "k" |}
           {| search := Some "q"; size := SInt 2; page := SInt 1 |} "q" 200 "body"
           full_response (VInt 1, VInt 2, VInt 2) [item_with_http; second_item_with_http]
           empty_world); reflexivity.
Defined.

(** ** A response without its pagination block *)

Lemma lookup_key_getitem k v :
  getitem v k = match lookup_key k v with
                | Some x => inr x
                | None => match v with VDict _ => inl (KeyError k) | _ => inl TypeError end
                end.
Proof. destruct v; reflexivity. Qed.

(** One of the three reads of [display_results] in the pagination block. *)
Definition pagination_read (api_response : value) (k : string) : exn + value :=
  match getitem api_response "meta" with
  | inl e => inl e
  | inr meta =>
      match getitem meta "pagination" with
      | inl e => inl e
      | inr p => getitem p k
      end
  end.

Lemma pagination_pure api_response k w :
  Cmd.pagination api_response k w = (w, pagination_read api_response k).
Proof.
  unfold Cmd.pagination, pagination_read, subscript, bind, lift.
  destruct (getitem api_response "meta") as [e|meta]; [reflexivity|].
  destruct (getitem meta "pagination") as [e|p]; reflexivity.
Qed.

(** The first of the three reads that fails decides how the display
    ends. *)
Definition first_pagination_error (api_response : value) : option exn :=
  match pagination_read api_response "page_index" with
  | inl e => Some e
  | inr _ =>
      match pagination_read api_response "page_size" with
      | inl e => Some e
      | inr _ =>
          match pagination_read api_response "total" with
          | inl e => Some e
          | inr _ => None
          end
      end
  end.

Lemma pagination_of_none api_response :
  pagination_of api_response = None ->
  exists e, first_pagination_error api_response = Some e /\ classify e = DataShapeError.
Proof.
  unfold pagination_of, first_pagination_error, pagination_read.
  rewrite (lookup_key_getitem "meta" api_response).
  destruct (lookup_key "meta" api_response) as [meta|].
  - rewrite (lookup_key_getitem "pagination" meta).
    destruct (lookup_key "pagination" meta) as [pd|].
    + rewrite (lookup_key_getitem "page_index" pd), (lookup_key_getitem "page_size" pd),
        (lookup_key_getitem "total" pd).
      destruct (lookup_key "page_index" pd), (lookup_key "page_size" pd),
        (lookup_key "total" pd); try discriminate; intros _;
        destruct pd; eexists; split; reflexivity.
    + intros _. destruct meta; eexists; split; reflexivity.
  - intros _. destruct api_response; eexists; split; reflexivity.
Qed.

(** X12: on a response whose pagination block is missing or incomplete,
    [display_results] of either file raises a [KeyError] or a [TypeError]
    when only the blank line has been printed: no summary, no query, no
    warning, no table. *)
Theorem display_without_pagination (self : QuakeQuery) (api_response : value)
    (start_page result_count : scalar) (query_term : string) (w : world) :
  pagination_of api_response = None ->
  exists e,
    classify e = DataShapeError
    /\ Cmd.display_results self api_response start_page result_count query_term w
       = (write_stdout blank_line w, inl e)
    /\ Plain.display_results self api_response start_page result_count query_term w
       = (write_stdout blank_line w, inl e).
Proof.
  intros H. destruct (pagination_of_none _ H) as (e & He & Hc). exists e.
  split; [exact Hc|].
  unfold first_pagination_error in He.
  split.
  - unfold Cmd.display_results. rewrite bind_print.
    unfold bind at 1. rewrite pagination_pure.
    destruct (pagination_read api_response "page_index"); [now injection He as ->|].
    unfold bind at 1. rewrite pagination_pure.
    destruct (pagination_read api_response "page_size"); [now injection He as ->|].
    unfold bind at 1. rewrite pagination_pure.
    destruct (pagination_read api_response "total"); [now injection He as ->|discriminate].
  - unfold Plain.display_results. rewrite bind_print.
    change Plain.pagination with Cmd.pagination.
    unfold bind at 1. rewrite pagination_pure.
    destruct (pagination_read api_response "page_index"); [now injection He as ->|].
    unfold bind at 1. rewrite pagination_pure.
    destruct (pagination_read api_response "page_size"); [now injection He as ->|].
    unfold bind at 1. rewrite pagination_pure.
    destruct (pagination_read api_response "total"); [now injection He as ->|discriminate].
Qed.

Lemma display_without_pagination_witness :
  exists e,
    classify e = DataShapeError
    /\ Cmd.display_results {| api_key := "k" |} (VDict [("meta", VDict []); ("data", VDict [])])
         (SInt 1) (SInt 2) "q" empty_world
       = (write_stdout blank_line empty_world, inl e)
    /\ Plain.display_results {| api_key := "k" |}
         (VDict [("meta", VDict []); ("data", VDict [])]) (SInt 1) (SInt 2) "q" empty_world
       = (write_stdout blank_line empty_world, inl e).
Proof.
  apply (display_without_pagination {| api_key := "k" |}
           (VDict [("meta", VDict []); ("data", VDict [])])).
  reflexivity.
Defined.

(** ** More on the file name *)

Lemma append_assoc (a b c : string) : (a +:+ b) +:+ c = a +:+ b +:+ c.
Proof.
  induction a as [|x a IH]; [reflexivity|].
  rewrite !append_cons. now rewrite IH.
Qed.

Lemma query_filename_safe (q : string) : free_of_unsafe q = true -> query_filename q = q.
Proof.
  rewrite query_filename_sanitized.
  induction q as [|c q IH]; [reflexivity|].
  cbn [free_of_unsafe sanitized]. intros H. apply andb_true_iff in H as [Hc Hq].
  rewrite IH by assumption. unfold safe_substitute. unfold unsafe in Hc.
  apply negb_true_iff in Hc.
  destruct (Ascii.eqb c space); [discriminate|].
  destruct (Ascii.eqb c colon); [discriminate|].
  destruct (Ascii.eqb c dquote); [discriminate|].
  reflexivity.
Qed.

(** X13: a query term with no space, colon or double quote goes into the
    file name as it is; and the file name of a term is also the file name
    of the term already cleaned, so that cleaning twice changes nothing and
    two terms that differ only in what the cleaning removes or replaces
    are exported to the same file. *)
Theorem file_name_of_clean_term (query_term : string) :
  (free_of_unsafe query_term = true ->
     file_name query_term = "quake_results_" +:+ query_term +:+ ".xlsx")
  /\ query_filename (query_filename query_term) = query_filename query_term
  /\ file_name (query_filename query_term) = file_name query_term.
Proof.
  assert (Hidem : query_filename (query_filename query_term) = query_filename query_term).
  { apply query_filename_safe. rewrite query_filename_sanitized. apply sanitized_free. }
  split; [|split].
  - intros H. unfold file_name. now rewrite query_filename_safe.
  - exact Hidem.
  - unfold file_name. now rewrite Hidem.
Qed.

Lemma file_name_of_clean_term_witness :
  file_name "city=Beijing" = "quake_results_city=Beijing.xlsx"
  /\ file_name (query_filename "port: 80") = file_name "port: 80".
Proof.
  destruct (file_name_of_clean_term "city=Beijing") as (Hclean & _ & _).
  destruct (file_name_of_clean_term "port: 80") as (_ & _ & Hsame).
  split; [apply Hclean; reflexivity|exact Hsame].
Defined.

(** ** The export path *)

Lemma file_name_relative (query_term : string) :
  String.prefix "/" (file_name query_term) = false.
Proof. reflexivity. Qed.

(** X14: the export path is the working directory, a separator unless the
    directory is empty or already ends with one, and the file name: the
    query term cannot make the path absolute, because the name starts with
    the fixed prefix, so [os.path.join] never drops the directory. *)
Theorem export_path_in_working_directory (E : env) (query_term : string) :
  let cwd := getcwd E in
  let sep := if String.eqb cwd ""
                || String.eqb (String.substring (String.length cwd - 1) 1 cwd) "/"
             then "" else "/" in
  export_path E query_term = cwd +:+ sep +:+ file_name query_term.
Proof.
  cbv zeta. unfold export_path, path_join. rewrite file_name_relative.
  destruct (String.eqb (getcwd E) ""
            || String.eqb (String.substring (String.length (getcwd E) - 1) 1 (getcwd E)) "/");
    reflexivity.
Qed.

(** ** The two export messages *)

(** The text an f-string piece contributes when it is literal text or a
    string value. *)
Definition part_text (p : part) : option string :=
  match p with
  | Lit s => Some s
  | Fmt (VStr s) => Some s
  | _ => None
  end.

Fixpoint parts_text (ps : list part) : option string :=
  match ps with
  | [] => Some ""
  | p :: rest =>
      match part_text p, parts_text rest with
      | Some a, Some b => Some (a +:+ b)
      | _, _ => None
      end
  end.

Definition line_text (o : output) : option string :=
  match o with
  | Print ps => parts_text ps
  | PrintTable _ _ => None
  end.

Lemma append_empty_r (a : string) : a +:+ "" = a.
Proof. induction a as [|x a IH]; [reflexivity|]. rewrite append_cons. now rewrite IH. Qed.

(** X15: the message [main] prints after the export reads exactly as the
    message [export_to_excel] has just printed: the fixed sentence around
    the name of the exported file.  A successful run shows it twice. *)
Theorem export_message_twice (query : string) :
  line_text (main_exported_line query) = line_text (exported_line query)
  /\ line_text (exported_line query)
     = Some ("结果已成功导出至当前目录下的" +:+ file_name query +:+ "文件。").
Proof.
  unfold main_exported_line, exported_line, file_name. cbn [line_text parts_text part_text].
  rewrite !append_empty_r. split; [|reflexivity].
  f_equal. rewrite !append_assoc. reflexivity.
Qed.

(** ** A run over an item without the HTTP sub-structure *)

(** X16: when the search returns a response of result items of which at
    least one has no HTTP sub-structure, a run of [360QuakeForCMD.py]
    prints the summary, the query, the warnings and the table of the other
    items, then ends in [KeyError] for the key [http], raised by the
    export: no file is written and no export message is printed.  A run of
    [quake_query.py] ends in the same error after the summary and the
    query, with no table. *)
Theorem run_over_item_without_http (E : env) (self : QuakeQuery) (args : arguments)
    (query : string) (status_code : Z) (text : string) (api_response : value)
    (p : value * value * value) (items : list value) (w : world) :
  truthy (search args) = Some query ->
  post E (search_request self query (size args) (page args)) = Response status_code text ->
  http_error status_code = false ->
  json_loads E text = Some api_response ->
  pagination_of api_response = Some p ->
  lookup_key "data" api_response = Some (VList items) ->
  forallb result_item items = true ->
  forallb has_http items = false ->
  let w1 := record_request (search_request self query (size args) (page args)) w in
  Cmd.main E self args w
  = (write_lines ([blank_line; summary_line p; query_line query]
                  ++ omap id (imap (warning_at 1) items)
                  ++ [PrintTable field_names (omap id (imap (row_at 1) items))]) w1,
     inl (KeyError "http"))
  /\ Plain.main E self args w
     = (write_lines [blank_line; summary_line p; query_line query] w1,
        inl (KeyError "http")).
Proof.
  intros Hq Hpost Hs Hj Hp Hdata Hitems Hhttp. cbv zeta.
  rewrite <- kept_rows_imap, <- skip_warnings_imap.
  destruct (missing_http_raises_key_error_parts E self api_response p items
              (page args) (size args) query) as [Hexport Hplain]; try assumption.
  split.
  - rewrite (main_unfold _ _ _ query) by assumption. unfold bind at 1.
    rewrite perform_search_outcome. unfold search_outcome. rewrite Hpost, Hs, Hj.
    unfold after_search. unfold bind at 1.
    rewrite (display_results_skips _ _ p items) by assumption.
    unfold bind at 1. now rewrite Hexport.
  - unfold Plain.main. rewrite Hq, perform_search_same. unfold bind at 1.
    rewrite perform_search_outcome. unfold search_outcome. rewrite Hpost, Hs, Hj.
    apply Hplain.
Qed.

(** A service that answers with status 200 and a body that decodes to the
    scenario response. *)
Definition answering_scenario : env :=
  {| post := fun _ => Response 200 "body";
     json_loads := fun text => if String.eqb text "body" then Some scenario_response else None;
     json_error := fun _ => Malformed;
     getcwd := "/tmp";
     can_create := fun _ => true;
     excel_cell := refusing_control_characters |}.

Lemma run_over_item_without_http_witness :
  let self := {| api_key := "k" |} in
  let args := {| search := Some "q"; size := SInt 2; page := SInt 1 |} in
  let items := [item_with_http; item_without_http] in
  let w1 := record_request (search_request self "q" (SInt 2) (SInt 1)) empty_world in
  Cmd.main answering_scenario self args empty_world
  = (write_lines ([blank_line; summary_line (VInt 1, VInt 2, VInt 2); query_line "q"]
                  ++ omap id (imap (warning_at 1) items)
                  ++ [PrintTable field_names (omap id (imap (row_at 1) items))]) w1,
     inl (KeyError "http"))
  /\ Plain.main answering_scenario self args empty_world
     = (write_lines [blank_line; summary_line (VInt 1, VInt 2, VInt 2); query_line "q"] w1,
        inl (KeyError "http")).
Proof.
  cbv zeta.
  apply (run_over_item_without_http answering_scenario {| api_key := "k" |}
           {| search := Some "q"; size := SInt 2; page := SInt 1 |} "q" 200 "body"
           scenario_response (VInt 1, VInt 2, VInt 2) [item_with_http; item_without_http]
           empty_world); reflexivity.
Defined.

(** ** The remaining theorems at concrete inputs *)

Lemma export_to_excel_other_files_witness :
  files (fst (Cmd.export_to_excel working_directory {| api_key := "k" |} full_response "q"
                empty_world)) !! "/tmp/other.xlsx"
  = files empty_world !! "/tmp/other.xlsx"
  /\ sent (fst (Cmd.export_to_excel working_directory {| api_key := "k" |} full_response "q"
                  empty_world)) = sent empty_world.
Proof.
  apply (export_to_excel_other_files working_directory {| api_key := "k" |} full_response
           "q" empty_world "/tmp/other.xlsx").
  discriminate.
Defined.

Lemma failed_export_prints_nothing_witness :
  let path := export_path writable_directory "q" in
  let w1 := leave_truncated "/tmp/quake_results_q.xlsx"
              {| columns := field_names;
                 records := [[VInt 1; VStr control_character_host; VStr "1.1.1.1";
                              VInt 80]] |} empty_world in
  stdout w1 = stdout empty_world
  /\ sent w1 = sent empty_world
  /\ ((classify IllegalCharacterError = DataShapeError /\ w1 = empty_world)
      \/ (IllegalCharacterError = OSError path
          /\ can_create writable_directory path = false /\ w1 = empty_world)
      \/ (IllegalCharacterError = IllegalCharacterError
          /\ can_create writable_directory path = true
          /\ exists rows,
               store_rows writable_directory rows = None
               /\ w1 = leave_truncated path
                         {| columns := field_names; records := rows |} empty_world)).
Proof.
  cbv zeta.
  apply (failed_export_prints_nothing writable_directory {| api_key := "k" |}
           control_character_response "q" empty_world).
  reflexivity.
Defined.

Lemma failed_display_prints_no_table_witness :
  classify (KeyError "http") = DataShapeError
  /\ exists os,
       stdout (write_lines [blank_line; summary_line (VInt 1, VInt 2, VInt 2);
                            query_line "q"] empty_world)
       = stdout empty_world ++ blank_line :: os
       /\ forallb is_line os = true.
Proof.
  apply (failed_display_prints_no_table {| api_key := "k" |} scenario_response
           (SInt 1) (SInt 2) "q" empty_world
           (write_lines [blank_line; summary_line (VInt 1, VInt 2, VInt 2); query_line "q"]
              empty_world)
           (KeyError "http")).
  right. reflexivity.
Defined.

(** ** A body that cannot be decoded *)

(** X17: when the search is answered, with a status that is not an error
    status, by a body the decoder gives no value for, the exception of the
    decoder ([JSONDecodeError], or [ValueError] or [RecursionError]) is not
    caught by the [except] clause of [perform_search]: a run of either
    entry point ends in it with nothing printed at all, no file touched,
    and the one request handed to the library. *)
Theorem undecodable_body_ends_the_run_silently (E : env) (self : QuakeQuery)
    (args : arguments) (query : string) (status_code : Z) (text : string) (w : world) :
  truthy (search args) = Some query ->
  post E (search_request self query (size args) (page args)) = Response status_code text ->
  http_error status_code = false ->
  json_loads E text = None ->
  let e := match json_error E text with
           | Malformed => JSONDecodeError
           | IntegerTooLong => ValueError
           | NestingTooDeep => RecursionError
           end in
  let w1 := {| stdout := stdout w;
               sent := sent w ++ [search_request self query (size args) (page args)];
               files := files w |} in
  Cmd.main E self args w = (w1, inl e)
  /\ Plain.main E self args w = (w1, inl e)
  /\ classify e = DecodeError.
Proof.
  intros Hq Hpost Hs Hj. cbv zeta.
  assert (Hsearch : Cmd.perform_search E self query (size args) (page args) w
                    = (record_request (search_request self query (size args) (page args)) w,
                       inl (decoder_exception (json_error E text)))).
  { rewrite perform_search_outcome. unfold search_outcome. now rewrite Hpost, Hs, Hj. }
  split; [|split].
  - rewrite (main_unfold _ _ _ query) by assumption. unfold bind at 1. now rewrite Hsearch.
  - unfold Plain.main. rewrite Hq, perform_search_same. unfold bind at 1.
    now rewrite Hsearch.
  - now destruct (json_error E text).
Qed.

(** A service that answers with status 200 and an empty body. *)
Definition answering_nothing : env :=
  {| post := fun _ => Response 200 "";
     json_loads := fun _ => None;
     json_error := fun _ => Malformed;
     getcwd := "/tmp";
     can_create := fun _ => true;
     excel_cell := refusing_control_characters |}.

Lemma undecodable_body_ends_the_run_silently_witness :
  let self := {| api_key := "k" |} in
  let args := {| search := Some "q"; size := SInt 2; page := SInt 1 |} in
  let w1 := {| stdout := stdout empty_world;
               sent := sent empty_world ++ [search_request self "q" (SInt 2) (SInt 1)];
               files := files empty_world |} in
  Cmd.main answering_nothing self args empty_world = (w1, inl JSONDecodeError)
  /\ Plain.main answering_nothing self args empty_world = (w1, inl JSONDecodeError)
  /\ classify JSONDecodeError = DecodeError.
Proof.
  cbv zeta.
  apply (undecodable_body_ends_the_run_silently answering_nothing {| api_key := "k" |}
           {| search := Some "q"; size := SInt 2; page := SInt 1 |} "q" 200 "" empty_world);
    reflexivity.
Defined.
